(** * flowMC toy-experiment runner ([src/MCMC/experiment.py])

    A shallow embedding of [FlowMCExperimentRunner] and [main]: the output
    directory versioning, the choice of the target density, the translation
    of the hyperparameters into the sampler bundle, the R-hat diagnostics and
    the order in which the artifacts are rendered.

    Conventions.
    - Python exceptions are values of [exn]; a computation that touches the
      file system or renders a figure lives in the monad [M], whose state
      survives a raised exception (a directory created before a [raise]
      stays created).
    - [print] calls and the creation and closing of figures are left out:
      they have no influence on any value or file name.
    - flowMC, JAX's random module, ArviZ, the array reshape and the drawing
      calls of Matplotlib and corner are not part of the repository; they
      are the fields of the class [Extern], each of which may raise. *)

From Stdlib Require Import List String Ascii Bool ZArith NArith Lia.
From Stdlib Require Import DecimalString DecimalPos DecimalN PrimFloat Reals Lra.
Import ListNotations.

Local Open Scope string_scope.
Local Open Scope list_scope.

(* ================================================================== *)
(** * Part I. Definitions *)
(* ================================================================== *)

(** ** Exceptions and results *)

Inductive exn : Type :=
| ValueError (msg : string)
| FileExistsError (path : string)
| FileNotFoundError (path : string)
| NotADirectoryError (path : string)
| IndexError
| AttributeError (attr : string)
| OSError (path : string)
| LibraryError (cls : string).

Inductive result (A : Type) : Type :=
| Ok (a : A)
| Raise (e : exn).

Arguments Ok {A} a.
Arguments Raise {A} e.

(** [fails r]: the call ended in an exception. *)
Definition fails {A} (r : result A) : Prop := exists e, r = Raise e.

(** [fails_with cls r]: the call ended in a library exception of class [cls]
    (the only way an exception class that the module does not name itself
    can appear). *)
Definition fails_with {A} (cls : string) (r : result A) : Prop :=
  r = Raise (LibraryError cls).

Definition rbind {A B} (r : result A) (k : A -> result B) : result B :=
  match r with Ok a => k a | Raise e => Raise e end.

Fixpoint rmap {A B} (f : A -> result B) (l : list A) : result (list B) :=
  match l with
  | [] => Ok []
  | x :: tl =>
      rbind (f x) (fun y => rbind (rmap f tl) (fun ys => Ok (y :: ys)))
  end.

(** ** The file system

    A tree of named entries; every path is resolved from the root of the
    tree.  Components [.] and [..] and symbolic links are outside the model
    (see [plain_path]). *)

#[warnings="-register-all"]
Inductive node : Type :=
| File
| Dir (entries : list (string * node)).

Definition is_dir_node (n : node) : bool :=
  match n with Dir _ => true | File => false end.

Fixpoint lookup_entry (name : string) (es : list (string * node)) : option node :=
  match es with
  | [] => None
  | (k, n) :: tl => if String.eqb k name then Some n else lookup_entry name tl
  end.

Fixpoint set_entry (name : string) (n : node) (es : list (string * node))
  : list (string * node) :=
  match es with
  | [] => [(name, n)]
  | (k, m) :: tl =>
      if String.eqb k name then (k, n) :: tl else (k, m) :: set_entry name n tl
  end.

(** Splitting a path at ['/'], empty components dropped; [cur] is the
    component being read. *)
Fixpoint components (s cur : string) : list string :=
  match s with
  | EmptyString => if String.eqb cur "" then [] else [cur]
  | String c s' =>
      if Ascii.eqb c "/"
      then (if String.eqb cur "" then components s' ""
            else cur :: components s' "")
      else components s' (cur ++ String c "")
  end.

Definition path_components (p : string) : list string := components p "".

Definition plain_component (c : string) : bool :=
  negb (String.eqb c ".") && negb (String.eqb c "..").

Definition plain_path (p : string) : bool :=
  forallb plain_component (path_components p).

Fixpoint resolve_at (n : node) (comps : list string) : option node :=
  match comps with
  | [] => Some n
  | c :: rest =>
      match n with
      | File => None
      | Dir es =>
          match lookup_entry c es with
          | Some ch => resolve_at ch rest
          | None => None
          end
      end
  end.

Definition resolve (root : node) (p : string) : option node :=
  if String.eqb p "" then None else resolve_at root (path_components p).

Definition path_exists (root : node) (p : string) : bool :=
  match resolve root p with Some _ => true | None => false end.

Definition path_isdir (root : node) (p : string) : bool :=
  match resolve root p with Some (Dir _) => true | _ => false end.

Definition listdir (root : node) (p : string) : result (list string) :=
  match resolve root p with
  | Some (Dir es) => Ok (map fst es)
  | Some File => Raise (NotADirectoryError p)
  | None => Raise (FileNotFoundError p)
  end.

(** A chain of fresh nested directories [c1/c2/.../ck], seen from the entry
    that holds [c1]. *)
Fixpoint fresh_dirs (comps : list string) : node :=
  match comps with
  | [] => Dir []
  | c :: rest => Dir [(c, fresh_dirs rest)]
  end.

(** [os.makedirs] without [exist_ok]: the missing ancestors are created, an
    existing leaf is an error. *)
Fixpoint makedirs_at (p : string) (n : node) (comps : list string) : result node :=
  match comps with
  | [] => Raise (FileExistsError p)
  | c :: rest =>
      match n with
      | File => Raise (NotADirectoryError p)
      | Dir es =>
          match lookup_entry c es with
          | Some ch =>
              rbind (makedirs_at p ch rest)
                    (fun ch' => Ok (Dir (set_entry c ch' es)))
          | None => Ok (Dir (es ++ [(c, fresh_dirs rest)]))
          end
      end
  end.

Definition makedirs (root : node) (p : string) : result node :=
  if String.eqb p "" then Raise (FileNotFoundError p)
  else makedirs_at p root (path_components p).

(** [posixpath.join] for two arguments. *)
Definition starts_with_slash (s : string) : bool :=
  match s with String c _ => Ascii.eqb c "/" | EmptyString => false end.

Fixpoint ends_with_slash (s : string) : bool :=
  match s with
  | EmptyString => false
  | String c EmptyString => Ascii.eqb c "/"
  | String _ s' => ends_with_slash s'
  end.

Definition os_path_join (a b : string) : string :=
  if starts_with_slash b then b
  else if String.eqb a "" || ends_with_slash a then a ++ b
  else a ++ "/" ++ b.

(** ** The world and the monad of effects *)

Record world : Type := mkWorld {
  fs : node;                (* the directory tree *)
  saved : list string       (* figures written by [plt.savefig], in order *)
}.

Definition M (A : Type) : Type := world -> result A * world.

Definition ret {A} (a : A) : M A := fun w => (Ok a, w).

Definition raise {A} (e : exn) : M A := fun w => (Raise e, w).

Definition bind {A B} (m : M A) (k : A -> M B) : M B :=
  fun w =>
    match m w with
    | (Ok a, w') => k a w'
    | (Raise e, w') => (Raise e, w')
    end.

Definition lift {A} (r : result A) : M A := fun w => (r, w).

Declare Scope m_scope.
Delimit Scope m_scope with M.
Notation "x <- c ;; k" := (bind c (fun x => k))
  (at level 61, c at next level, right associativity) : m_scope.
Notation "c ;;; k" := (bind c (fun _ => k))
  (at level 61, right associativity) : m_scope.

Definition os_path_exists (p : string) : M bool :=
  fun w => (Ok (path_exists (fs w) p), w).

Definition os_makedirs (p : string) : M unit :=
  fun w =>
    match makedirs (fs w) p with
    | Ok root' => (Ok tt, mkWorld root' (saved w))
    | Raise e => (Raise e, w)
    end.

Definition os_listdir (p : string) : M (list string) :=
  fun w => (listdir (fs w) p, w).

(** The comprehension [[d for d in names if os.path.isdir(join(base, d))]]. *)
Definition isdir_filter (base_dir : string) (names : list string) : M (list string) :=
  fun w => (Ok (filter (fun d => path_isdir (fs w) (os_path_join base_dir d)) names), w).

(** ** [re.match(rf"{prefix}_(\d+)", name)]

    The prefix is read as a literal string, which is what the pattern means
    for a prefix without regular-expression operators ([literal_prefix]).
    The digits are ['0'] to ['9']: these are all the digits of [\d] and of
    [int] in a name of ASCII characters ([ascii_names]); the statements
    that depend on which names are counted carry both restrictions. *)

Definition is_digit (c : ascii) : bool :=
  (48 <=? nat_of_ascii c)%nat && (nat_of_ascii c <=? 57)%nat.

Fixpoint strip_prefix (p s : string) : option string :=
  match p with
  | EmptyString => Some s
  | String a p' =>
      match s with
      | String b s' => if Ascii.eqb a b then strip_prefix p' s' else None
      | EmptyString => None
      end
  end.

Fixpoint take_digits (s : string) : string :=
  match s with
  | String c s' => if is_digit c then String c (take_digits s') else ""
  | EmptyString => ""
  end.

Definition head_is_digit (s : string) : bool :=
  match s with
  | String c _ => is_digit c
  | EmptyString => false
  end.

(** The first group of the match, when there is a match. *)
Definition re_match_group1 (prefix name : string) : option string :=
  match strip_prefix (prefix ++ "_") name with
  | Some rest =>
      match take_digits rest with
      | EmptyString => None
      | ds => Some ds
      end
  | None => None
  end.

Definition digit_value (c : ascii) : N := N.of_nat (nat_of_ascii c - 48).

Fixpoint int_of_digits_from (acc : N) (ds : string) : N :=
  match ds with
  | EmptyString => acc
  | String c ds' => int_of_digits_from (10 * acc + digit_value c) ds'
  end.

(** [int(m.group(1))] *)
Definition int_of_digits (ds : string) : N := int_of_digits_from 0 ds.

(** [str(n)] for a natural number. *)
Definition str_of_N (n : N) : string := NilEmpty.string_of_uint (N.to_uint n).

Definition regex_operator (c : ascii) : bool :=
  existsb (Ascii.eqb c)
    (list_ascii_of_string ".^$*+?{}[]\|()").

Fixpoint forall_chars (f : ascii -> bool) (s : string) : bool :=
  match s with
  | EmptyString => true
  | String c s' => f c && forall_chars f s'
  end.

Definition literal_prefix (prefix : string) : bool :=
  forall_chars (fun c => negb (regex_operator c)) prefix.

Definition no_slash (s : string) : bool :=
  forall_chars (fun c => negb (Ascii.eqb c "/")) s.

(** [max(numbers, default=0)] *)
Definition max_default0 (numbers : list N) : N := fold_right N.max 0%N numbers.

(** The numbers of the names that match. *)
Definition matched_numbers (prefix : string) (names : list string) : list N :=
  flat_map (fun name =>
              match re_match_group1 prefix name with
              | Some ds => [int_of_digits ds]
              | None => []
              end) names.

Local Open Scope m_scope.

(** ** [FlowMCExperimentRunner.get_next_available_outdir] *)
Definition get_next_available_outdir (base_dir : string) (prefix : string) : M string :=
  present <- os_path_exists base_dir ;;
  (if present then ret tt else os_makedirs base_dir) ;;;
  names <- os_listdir base_dir ;;
  existing <- isdir_filter base_dir names ;;
  let numbers := matched_numbers prefix existing in
  let next_number := (max_default0 numbers + 1)%N in
  ret (os_path_join base_dir (prefix ++ "_" ++ str_of_N next_number)).

(** ** Command-line parameters ([vars(args)]) *)

Inductive pyval : Type :=
| PyInt (z : Z)
| PyFloat (f : float)
| PyStr (s : string).

Record params : Type := mkParams {
  experiment_type : string;
  n_dims : Z;
  outdir : string;
  n_local_steps : Z;
  n_global_steps : Z;
  n_training_loops : Z;
  mala_step_size : float;
  n_production_loops : Z;
  n_epochs : Z;
  n_chains : Z;
  rq_spline_hidden_units : pyval;   (* the option has no [type=] *)
  rq_spline_n_bins : Z;
  rq_spline_n_layers : Z;
  learning_rate : float;
  batch_size : Z;
  n_max_examples : Z;
  show_initial_positions : bool
}.

(** The namespace the parser builds when only the three required options
    are given. *)
Definition parser_defaults (kind : string) (dims : Z) (out : string) : params :=
  {| experiment_type := kind;
     n_dims := dims;
     outdir := out;
     n_local_steps := 20;
     n_global_steps := 50;
     n_training_loops := 20;
     mala_step_size := 0x1.999999999999ap-4%float;   (* 1e-1 *)
     n_production_loops := 20;
     n_epochs := 5;
     n_chains := 20;
     rq_spline_hidden_units := PyInt 32;
     rq_spline_n_bins := 8;
     rq_spline_n_layers := 4;
     learning_rate := 0x1.0624dd2f1a9fcp-10%float;   (* 1e-3 *)
     batch_size := 10000;
     n_max_examples := 10000;
     show_initial_positions := false |}.

Definition set_outdir (p : params) (d : string) : params :=
  {| experiment_type := experiment_type p;
     n_dims := n_dims p;
     outdir := d;
     n_local_steps := n_local_steps p;
     n_global_steps := n_global_steps p;
     n_training_loops := n_training_loops p;
     mala_step_size := mala_step_size p;
     n_production_loops := n_production_loops p;
     n_epochs := n_epochs p;
     n_chains := n_chains p;
     rq_spline_hidden_units := rq_spline_hidden_units p;
     rq_spline_n_bins := rq_spline_n_bins p;
     rq_spline_n_layers := rq_spline_n_layers p;
     learning_rate := learning_rate p;
     batch_size := batch_size p;
     n_max_examples := n_max_examples p;
     show_initial_positions := show_initial_positions p |}.

Definition set_n_dims (p : params) (d : Z) : params :=
  {| experiment_type := experiment_type p;
     n_dims := d;
     outdir := outdir p;
     n_local_steps := n_local_steps p;
     n_global_steps := n_global_steps p;
     n_training_loops := n_training_loops p;
     mala_step_size := mala_step_size p;
     n_production_loops := n_production_loops p;
     n_epochs := n_epochs p;
     n_chains := n_chains p;
     rq_spline_hidden_units := rq_spline_hidden_units p;
     rq_spline_n_bins := rq_spline_n_bins p;
     rq_spline_n_layers := rq_spline_n_layers p;
     learning_rate := learning_rate p;
     batch_size := batch_size p;
     n_max_examples := n_max_examples p;
     show_initial_positions := show_initial_positions p |}.

(** ** The target densities

    The three log-densities, over the real numbers (the idealisation of the
    JAX float arithmetic).  A vector is the list of its coordinates. *)

Module Targets.
Local Open Scope R_scope.

Definition fsum (l : list R) : R := fold_right Rplus 0 l.

Definition sq (a : R) : R := a * a.

(** [jnp.linalg.norm] of a vector. *)
Definition norm (x : list R) : R := sqrt (fsum (map sq x)).

(** [jax.scipy.special.logsumexp] *)
Definition logsumexp (l : list R) : R := ln (fsum (map exp l)).

(** [x[i]] for a constant [i >= 0]: JAX clamps an index past the end to the
    last coordinate; an empty vector has nothing to return. *)
Definition index (x : list R) (i : nat) : result R :=
  match x with
  | [] => Raise IndexError
  | _ :: _ => Ok (nth (Nat.min i (List.length x - 1)) x 0)
  end.

Definition target_normal (x : list R) : result R :=
  Ok (- (1/2) * fsum (map sq x)).

Definition target_dual_moon (x : list R) : result R :=
  let term1 := (1/2) * sq ((norm x - 2) / (1/10)) in
  rbind (index x 0) (fun x0 =>
  let term2 := map (fun c => - (1/2) * sq ((x0 + c) / (8/10))) [-3; 3] in
  rbind (index x 1) (fun x1 =>
  let term3 := map (fun c => - (1/2) * sq ((x1 + c) / (6/10))) [-3; 3] in
  Ok (- (term1 - logsumexp term2 - logsumexp term3)))).

(** [x[1:]] is [tl x], [x[:-1]] is [removelast x]. *)
Definition target_rosenbrock (x : list R) : result R :=
  Ok (- fsum (map (fun ab : R * R =>
                     let (a, b) := ab in
                     100 * sq (a - sq b) + sq (1 - b))
                  (combine (tl x) (removelast x)))).
End Targets.

(** The value of [self.target_fn]: one of the three bound methods. *)
Inductive target : Type :=
| target_normal
| target_dual_moon
| target_rosenbrock.

(** Calling the bound method ([data] is not used by any of them). *)
Definition call_target (t : target) (x : list R) : result R :=
  match t with
  | target_normal => Targets.target_normal x
  | target_dual_moon => Targets.target_dual_moon x
  | target_rosenbrock => Targets.target_rosenbrock x
  end.

Definition SUPPORTED_EXPERIMENTS : list string :=
  ["gaussian"; "dualmoon"; "rosenbrock"].

Definition py_in (s : string) (l : list string) : bool :=
  existsb (String.eqb s) l.

(** [str] of a list of strings without quotes or escapes. *)
Definition py_str_list (l : list string) : string :=
  ("[" ++ String.concat ", " (map (fun s => "'" ++ s ++ "'")%string l) ++ "]")%string.

Definition unsupported_message (kind : string) : string :=
  ("Experiment type " ++ kind ++ " is not supported. Supported types are: "
   ++ py_str_list SUPPORTED_EXPERIMENTS)%string.

(** The [if]/[elif] chain of the constructor; without a match the attribute
    stays unset. *)
Definition select_target (kind : string) : option target :=
  if String.eqb kind "gaussian" then Some target_normal
  else if String.eqb kind "dualmoon" then Some target_dual_moon
  else if String.eqb kind "rosenbrock" then Some target_rosenbrock
  else None.

(** ** Arrays

    A NumPy array carries its shape next to its cells; [positions] is indexed
    [chain][draw][dimension]. *)

Record ndarray2 : Type := mkArr2 {
  shape2 : nat * nat;
  cells2 : list (list float)
}.

Record ndarray3 : Type := mkArr3 {
  shape3 : nat * nat * nat;
  cells3 : list (list (list float))
}.

Definition n_chain_axis (a : ndarray3) : nat := fst (fst (shape3 a)).
Definition n_draw_axis (a : ndarray3) : nat := snd (fst (shape3 a)).
Definition n_dim_axis (a : ndarray3) : nat := snd (shape3 a).

(** The cells agree with the shape. *)
Definition well_shaped (a : ndarray3) : Prop :=
  List.length (cells3 a) = n_chain_axis a /\
  Forall (fun chain =>
            List.length chain = n_draw_axis a /\
            Forall (fun draw => List.length draw = n_dim_axis a) chain)
         (cells3 a).

(** [a[:, :k, j]] *)
Definition window_slice (a : ndarray3) (k j : nat) : result ndarray2 :=
  if (j <? n_dim_axis a)%nat
  then Ok (mkArr2 (n_chain_axis a, Nat.min k (n_draw_axis a))
                  (map (fun chain => map (fun draw => nth j draw nan) (firstn k chain))
                       (cells3 a)))
  else Raise IndexError.

(** [a[:, :, j]] *)
Definition dim_slice (a : ndarray3) (j : nat) : ndarray2 :=
  mkArr2 (n_chain_axis a, n_draw_axis a)
         (map (fun chain => map (fun draw => nth j draw nan) chain) (cells3 a)).

(** The shape of [np.array(rows)] for a list of rows of equal length: an
    empty list gives the one-axis shape [(0,)]. *)
Definition np_array_shape {A} (rows : list (list A)) : list nat :=
  match rows with
  | [] => [0%nat]
  | r :: _ => [List.length rows; List.length r]
  end.

(** [range(n)] for a Python integer. *)
Definition py_range (n : Z) : list nat := seq 0 (Z.to_nat n).

(** ** What the sampler is given and what it gives back *)

Record bundle_args (K : Type) : Type := mkBundle {
  b_rng_key : K;
  b_n_chains : Z;
  b_n_dims : Z;
  b_logpdf : target;
  b_n_local_steps : Z;
  b_n_global_steps : Z;
  b_n_training_loops : Z;
  b_n_production_loops : Z;
  b_n_epochs : Z;
  b_mala_step_size : pyval;
  b_rq_spline_hidden_units : list pyval;
  b_rq_spline_n_bins : Z;
  b_rq_spline_n_layers : Z;
  b_learning_rate : float;
  b_batch_size : Z;
  b_n_max_examples : Z;
  b_verbose : bool
}.

Arguments mkBundle {K}.
Arguments b_rng_key {K}.
Arguments b_n_chains {K}.
Arguments b_n_dims {K}.
Arguments b_logpdf {K}.
Arguments b_n_local_steps {K}.
Arguments b_n_global_steps {K}.
Arguments b_n_training_loops {K}.
Arguments b_n_production_loops {K}.
Arguments b_n_epochs {K}.
Arguments b_mala_step_size {K}.
Arguments b_rq_spline_hidden_units {K}.
Arguments b_rq_spline_n_bins {K}.
Arguments b_rq_spline_n_layers {K}.
Arguments b_learning_rate {K}.
Arguments b_batch_size {K}.
Arguments b_n_max_examples {K}.
Arguments b_verbose {K}.

(** [Sampler(dim, n_chains, rng_key, resource_strategy_bundles=bundle)]
    followed by [sampler.sample(initial_position, data)]; [data] is the
    empty dictionary. *)
Record sampler_call (K : Type) : Type := mkCall {
  s_n_dim : Z;
  s_n_chains : Z;
  s_rng_key : K;
  s_bundle : bundle_args K;
  s_initial_position : list (list float)
}.

Arguments mkCall {K}.
Arguments s_n_dim {K}.
Arguments s_n_chains {K}.
Arguments s_rng_key {K}.
Arguments s_bundle {K}.
Arguments s_initial_position {K}.

(** [sampler.resources], the entries the runner reads. *)
Record resources (Mdl : Type) : Type := mkResources {
  positions_production : ndarray3;
  local_accs_production : list (list float);
  global_accs_production : list (list float);
  log_prob_production : list (list float);
  loss_buffer : list (list float);
  model : Mdl
}.

Arguments mkResources {Mdl}.
Arguments positions_production {Mdl}.
Arguments local_accs_production {Mdl}.
Arguments global_accs_production {Mdl}.
Arguments log_prob_production {Mdl}.
Arguments loss_buffer {Mdl}.
Arguments model {Mdl}.

(** ** The external collaborators *)

Class Extern : Type := {
  prng_key : Type;
  nf_model : Type;
  (** [jax.random.PRNGKey], [jax.random.split], [jax.random.normal] *)
  PRNGKey : Z -> prng_key;
  random_split : prng_key -> prng_key * prng_key;
  random_normal : prng_key -> Z * Z -> result (list (list float));
  (** building the bundle and the sampler, and sampling *)
  flowmc_sample : sampler_call prng_key -> result (resources nf_model);
  (** [model.sample(key, n)] of the trained flow *)
  model_sample : nf_model -> prng_key -> Z -> result (list (list float));
  (** [az.rhat] of one [(chain, draw)] array with the given method *)
  az_rhat : string -> ndarray2 -> result float;
  (** whether [plt.savefig] can write the named file *)
  savefig_ok : string -> bool;
  (** [plot_diagnostics], from the means of the acceptances to
      [plt.tight_layout()], for the local acceptances, the global
      acceptances and the log-probabilities *)
  draw_diagnostics :
    list (list float) -> list (list float) -> list (list float) -> result unit;
  (** [chains.reshape(-1, n_dims)] of the positions array *)
  array_reshape : ndarray3 -> Z -> result (list (list float));
  (** [corner.corner(np.array(samples), fig=fig, labels=labels)] *)
  corner_corner : list (list float) -> list string -> result unit;
  (** [plot_loss_curve], from [plt.figure] to [plt.title], for the loss
      buffer *)
  draw_loss : list (list float) -> result unit;
  (** [plot_rhat_diagnostics], from [np.linspace(0, n_steps, 7)] to
      [plt.legend()]: the number of draws, the window matrix (plotted
      transposed) and the labels *)
  draw_trace : nat -> list (list float) -> list string -> result unit;
  (** [compute_rhat], from [plt.subplots(figsize=(5, 0.5 + 0.3 * n_dims))]
      to [table.set_fontsize(10)]: [n_dims] and the R-hat values *)
  draw_table : Z -> list float -> result unit
}.

(** ** The runner object *)

Record runner {E : Extern} : Type := mkRunner {
  r_params : params;
  target_fn : option target;
  sampler : option (resources nf_model)
}.

Arguments mkRunner {E}.

Section Runner.
Context {E : Extern}.

(** [FlowMCExperimentRunner.__init__] *)
Definition init (args : params) : M runner :=
  let base_results_dir := outdir args in
  unique_outdir <- get_next_available_outdir base_results_dir "results" ;;
  os_makedirs unique_outdir ;;;
  let self_params := set_outdir args unique_outdir in
  if negb (py_in (experiment_type self_params) SUPPORTED_EXPERIMENTS)
  then raise (ValueError (unsupported_message (experiment_type self_params)))
  else ret (mkRunner self_params
                     (select_target (experiment_type self_params)) None).

(** The arguments of [RQSpline_MALA_Bundle] in [run_experiment]. *)
Definition bundle_of (p : params) (target_fn : target) (subkey : prng_key)
  : bundle_args prng_key :=
  {| b_rng_key := subkey;
     b_n_chains := n_chains p;
     b_n_dims := n_dims p;
     b_logpdf := target_fn;
     b_n_local_steps := n_local_steps p;
     b_n_global_steps := n_global_steps p;
     b_n_training_loops := n_training_loops p;
     b_n_production_loops := n_production_loops p;
     b_n_epochs := n_epochs p;
     b_mala_step_size := PyInt (n_epochs p);
     b_rq_spline_hidden_units :=
       [rq_spline_hidden_units p; rq_spline_hidden_units p];
     b_rq_spline_n_bins := rq_spline_n_bins p;
     b_rq_spline_n_layers := rq_spline_n_layers p;
     b_learning_rate := learning_rate p;
     b_batch_size := batch_size p;
     b_n_max_examples := n_max_examples p;
     b_verbose := false |}.

Definition get_target_fn (r : runner) : result target :=
  match target_fn r with
  | Some t => Ok t
  | None => Raise (AttributeError "target_fn")
  end.

(** Everything [run_experiment] hands to flowMC. *)
Definition sampler_request (r : runner) : result (sampler_call prng_key) :=
  let p := r_params r in
  let dim := n_dims p in
  let rng_key := PRNGKey 42 in
  let (rng_key, subkey) := random_split rng_key in
  rbind (random_normal subkey (n_chains p, dim)) (fun initial_position =>
  rbind (get_target_fn r) (fun t =>
  Ok {| s_n_dim := dim;
        s_n_chains := n_chains p;
        s_rng_key := rng_key;
        s_bundle := bundle_of p t subkey;
        s_initial_position := initial_position |})).

(** [run_experiment]: the sampler is stored in the runner. *)
Definition run_experiment (r : runner) : M runner :=
  call <- lift (sampler_request r) ;;
  res <- lift (flowmc_sample call) ;;
  ret (mkRunner (r_params r) (target_fn r) (Some res)).

Definition get_resources (r : runner) : result (resources nf_model) :=
  match sampler r with
  | Some res => Ok res
  | None => Raise (AttributeError "sampler")
  end.

(** [plt.savefig(save_name, ...)] *)
Definition plt_savefig (save_name : string) : M unit :=
  fun w =>
    if savefig_ok save_name
    then (Ok tt, mkWorld (fs w) (saved w ++ [save_name]))
    else (Raise (OSError save_name), w).

Definition artifact (r : runner) (file : string) : string :=
  os_path_join (outdir (r_params r)) file.

(** [az.rhat(idata, var_names=["x"], method=method)["x"].values] for the
    posterior [{"x": chains}]: the statistic of every [(chain, draw)]
    slice along the last axis. *)
Definition az_rhat_dataset (method : string) (chains : ndarray3)
  : result (list float) :=
  rmap (fun j => az_rhat method (dim_slice chains j))
       (seq 0 (n_dim_axis chains)).

(** The values [compute_rhat] returns. *)
Definition rhat_values (method : string) (r : runner) : result (list float) :=
  rbind (get_resources r) (fun res =>
  az_rhat_dataset method (positions_production res)).

(** [compute_rhat] *)
Definition compute_rhat (method : string) (r : runner) : M (list float) :=
  values <- lift (rhat_values method r) ;;
  lift (draw_table (n_dims (r_params r)) values) ;;;
  plt_savefig (artifact r "rhat_table.pdf") ;;;
  ret values.

Definition n_step_group : nat := 7.

(** The nested comprehension of [plot_rhat_diagnostics]: one row per
    dimension, one entry per window. *)
Definition rhat_windows (chains : ndarray3) (dims : Z)
  : result (list (list float)) :=
  let n_steps := n_draw_axis chains in
  let n_group_step := (n_steps / n_step_group)%nat in
  rmap (fun j =>
          rmap (fun i =>
                  rbind (window_slice chains ((i + 1) * n_group_step) j)
                        (az_rhat "rank"))
               (seq 0 n_step_group))
       (py_range dims).

Definition rhat_s (r : runner) : result (list (list float)) :=
  rbind (get_resources r) (fun res =>
  rhat_windows (positions_production res) (n_dims (r_params r))).

(** [[f"x{i}" for i in range(n_dims)]] *)
Definition labels (dims : Z) : list string :=
  map (fun i => ("x" ++ str_of_N (N.of_nat i))%string) (py_range dims).

(** [plot_diagnostics] *)
Definition plot_diagnostics (r : runner) : M unit :=
  res <- lift (get_resources r) ;;
  lift (draw_diagnostics (local_accs_production res)
                         (global_accs_production res)
                         (log_prob_production res)) ;;;
  plt_savefig (artifact r "acceptance_and_logprob.pdf").

(** [print_data] *)
Definition print_data (r : runner) : M unit :=
  _ <- lift (get_resources r) ;;
  ret tt.

(** The arguments of the flow-model sample call in [plot_corner]. *)
Definition nf_sample_key : prng_key := PRNGKey 2046.
Definition nf_sample_count : Z := 10000.

(** The first argument of the first [corner.corner] call:
    [chains.reshape(-1, n_dims)], then the plot of it. *)
Definition draw_chains_corner (r : runner) (res : resources nf_model) : result unit :=
  rbind (array_reshape (positions_production res) (n_dims (r_params r)))
        (fun flat => corner_corner flat (labels (n_dims (r_params r)))).

(** [plot_corner] *)
Definition plot_corner (r : runner) : M unit :=
  res <- lift (get_resources r) ;;
  nf_samples <- lift (model_sample (model res) nf_sample_key nf_sample_count) ;;
  lift (draw_chains_corner r res) ;;;
  plt_savefig (artifact r "chains_corner_plot.pdf") ;;;
  lift (corner_corner nf_samples (labels (n_dims (r_params r)))) ;;;
  plt_savefig (artifact r "flow_samples_corner_plot.pdf").

(** [plot_loss_curve] *)
Definition plot_loss_curve (r : runner) : M unit :=
  res <- lift (get_resources r) ;;
  lift (draw_loss (loss_buffer res)) ;;;
  plt_savefig (artifact r "training_loss_curve.pdf").

(** [plot_rhat_diagnostics] *)
Definition plot_rhat_diagnostics (r : runner) : M unit :=
  res <- lift (get_resources r) ;;
  rows <- lift (rhat_s r) ;;
  lift (draw_trace (n_draw_axis (positions_production res)) rows
                   (labels (n_dims (r_params r)))) ;;;
  plt_savefig (artifact r "rhat_diagnostics.pdf").

(** [main], after the parser has produced [args]. *)
Definition main (args : params) : M unit :=
  r <- init args ;;
  r <- run_experiment r ;;
  plot_diagnostics r ;;;
  print_data r ;;;
  plot_corner r ;;;
  plot_loss_curve r ;;;
  plot_rhat_diagnostics r ;;;
  _ <- compute_rhat "rank" r ;;
  ret tt.
End Runner.

(** ** Reading the listing of a directory

    The immediate subdirectories among the entries of a directory, and the
    version numbers their names carry. *)

Definition subdirectories (es : list (string * node)) : list string :=
  map fst (filter (fun e => is_dir_node (snd e)) es).

Definition version_numbers (prefix : string) (es : list (string * node)) : list N :=
  matched_numbers prefix (subdirectories es).

(** Entry names are non-empty, free of ['/'] and pairwise distinct. *)
Definition entry_name_ok (name : string) : bool :=
  negb (String.eqb name "") && no_slash name.

Definition entries_ok (es : list (string * node)) : Prop :=
  NoDup (map fst es) /\ Forall (fun e => entry_name_ok (fst e) = true) es.

(** Names made of ASCII characters only.  For such names the digits of the
    pattern and of [int] are ['0'] to ['9'], as [is_digit] has them; a name
    with other characters may hold further Unicode decimal digits, which
    the model does not read. *)
Definition ascii_string (s : string) : bool :=
  forall_chars (fun c => (nat_of_ascii c <? 128)%nat) s.

Definition ascii_names (es : list (string * node)) : Prop :=
  Forall (fun e => ascii_string (fst e) = true) es.

(** ** Derived notions used in the statements *)

(** [chains[:, :0, j]]: the window without draws (the same for every [j]
    inside the array). *)
Definition empty_window (a : ndarray3) : ndarray2 :=
  mkArr2 (n_chain_axis a, 0%nat) (map (fun _ => []) (cells3 a)).

(** Two values agree within the tolerance [1e-6] (never the case for NaN). *)
Definition within_tolerance (a b : float) : bool :=
  PrimFloat.leb (PrimFloat.abs (PrimFloat.sub a b)) 0x1.0c6f7a0b5ed8dp-20%float.

(** Entry of the window matrix for dimension [j] and window [w] (from 1). *)
Definition trace_entry (rows : list (list float)) (j w : nat) : float :=
  nth (w - 1) (nth j rows []) nan.

(** "The value in the last window equals the full-data value within
    tolerance", for the matrix of [plot_rhat_diagnostics] and the values of
    [compute_rhat]. *)
Definition last_window_is_full_data {E : Extern} (chains : ndarray3) (dims : Z) : Prop :=
  forall rows full,
    rhat_windows chains dims = Ok rows ->
    az_rhat_dataset "rank" chains = Ok full ->
    forall j, (j < n_dim_axis chains)%nat ->
      within_tolerance (trace_entry rows j n_step_group) (nth j full nan) = true.

(** "With fewer than 2 chains every R-hat computation fails with
    InsufficientDataError." *)
Definition single_chain_is_rejected {E : Extern} (chains : ndarray3) (dims : Z) : Prop :=
  (n_chain_axis chains < 2)%nat ->
  fails_with "InsufficientDataError" (az_rhat_dataset "rank" chains) /\
  fails_with "InsufficientDataError" (rhat_windows chains dims).

(** "Construction fails when the kind is unsupported or the dimensionality
    is below 1." *)
Definition construction_validates {E : Extern} (args : params) (w : world) : Prop :=
  py_in (experiment_type args) SUPPORTED_EXPERIMENTS = false \/ (n_dims args < 1)%Z ->
  fails (fst (init args w)).

(** The enumeration as the specification spells it. *)
Definition spec_enumeration : list string := ["gaussian"; "dual-moon"; "rosenbrock"].

(** "Every name of the enumeration resolves to a density, every other
    string is rejected." *)
Definition registry_matches_spec_enumeration {E : Extern} (args : params) (w : world)
  : Prop :=
  (In (experiment_type args) spec_enumeration ->
   exists r t, fst (init args w) = Ok r /\ target_fn r = Some t)
  /\ (~ In (experiment_type args) spec_enumeration -> fails (fst (init args w))).

(** The artifacts of a run, in the order [main] renders them. *)
Definition artifact_names : list string :=
  ["acceptance_and_logprob.pdf";
   "chains_corner_plot.pdf";
   "flow_samples_corner_plot.pdf";
   "training_loss_curve.pdf";
   "rhat_diagnostics.pdf";
   "rhat_table.pdf"].

(** The rendering steps of a run: for every artifact the outcome of
    drawing its figure and the file the figure is saved to. *)
Definition render_steps {E : Extern} (r : runner) (res : resources nf_model)
           (samples rows : list (list float)) (values : list float)
  : list (result unit * string) :=
  let dims := n_dims (r_params r) in
  [(draw_diagnostics (local_accs_production res) (global_accs_production res)
                     (log_prob_production res),
    artifact r "acceptance_and_logprob.pdf");
   (draw_chains_corner r res, artifact r "chains_corner_plot.pdf");
   (corner_corner samples (labels dims), artifact r "flow_samples_corner_plot.pdf");
   (draw_loss (loss_buffer res), artifact r "training_loss_curve.pdf");
   (draw_trace (n_draw_axis (positions_production res)) rows (labels dims),
    artifact r "rhat_diagnostics.pdf");
   (draw_table dims values, artifact r "rhat_table.pdf")].

(** The files written by the steps before the first one that fails, in
    drawing or in saving. *)
Fixpoint rendered_files (ok : string -> bool) (steps : list (result unit * string))
  : list string :=
  match steps with
  | [] => []
  | (Ok _, f) :: tl => if ok f then f :: rendered_files ok tl else []
  | (Raise _, _) :: _ => []
  end.

(** The exception of the first step that fails, if one does. *)
Fixpoint steps_outcome (ok : string -> bool) (steps : list (result unit * string))
  : result unit :=
  match steps with
  | [] => Ok tt
  | (Ok _, f) :: tl => if ok f then steps_outcome ok tl else Raise (OSError f)
  | (Raise e, _) :: _ => Raise e
  end.

(** "When one artifact cannot be rendered, the others are still produced":
    [d] is the versioned output directory of the run. *)
Definition run_continues_after_failed_artifact {E : Extern}
           (args : params) (w : world) (d : string) : Prop :=
  forall failing,
    In failing artifact_names ->
    savefig_ok (os_path_join d failing) = false ->
    (forall f, In f artifact_names -> f <> failing ->
               savefig_ok (os_path_join d f) = true) ->
    forall f, In f artifact_names -> f <> failing ->
              In (os_path_join d f) (saved (snd (main args w))).

(** ** Stand-ins for the collaborators and sample inputs

    Concrete collaborators on which the definitions can be run: keys are the
    path of splits from a seed, the flow model is a unit value, the sampler
    returns a given positions array, and [az.rhat] is a given function. *)

(** A reshape that merges the chain and draw axes when [d] is the last
    axis of the array, and is refused otherwise (it does not regroup the
    values for another [d]). *)
Definition flatten_chains (a : ndarray3) (d : Z) : result (list (list float)) :=
  if ((0 <? d)%Z && (Z.to_nat d =? n_dim_axis a)%nat)%bool
  then Ok (List.concat (cells3 a))
  else Raise (LibraryError (if (d =? 0)%Z then "ZeroDivisionError" else "TypeError")).

Definition example_extern (positions : ndarray3)
           (rhat : ndarray2 -> result float) (ok : string -> bool) : Extern :=
  {| prng_key := list Z;
     nf_model := unit;
     PRNGKey := fun seed => [seed];
     random_split := fun k => ((k ++ [0%Z])%list, (k ++ [1%Z])%list);
     random_normal := fun _ shape =>
       Ok (repeat (repeat 0%float (Z.to_nat (snd shape))) (Z.to_nat (fst shape)));
     flowmc_sample := fun _ => Ok (mkResources positions [] [] [] [] tt);
     model_sample := fun _ _ _ => Ok [];
     az_rhat := fun _ a => rhat a;
     savefig_ok := ok;
     draw_diagnostics := fun _ _ _ => Ok tt;
     array_reshape := flatten_chains;
     corner_corner := fun _ _ => Ok tt;
     draw_loss := fun _ => Ok tt;
     draw_trace := fun _ _ _ => Ok tt;
     draw_table := fun _ _ => Ok tt |}.

Module StandIn.
Local Open Scope float_scope.

Fixpoint float_of_nat (n : nat) : float :=
  match n with
  | O => 0
  | S m => float_of_nat m + 1
  end.

Definition fsum (l : list float) : float := fold_left PrimFloat.add l 0.

Definition fmean (l : list float) : float :=
  fsum l / float_of_nat (List.length l).

Definition fvar (l : list float) : float :=
  let m := fmean l in
  fsum (map (fun x => (x - m) * (x - m)) l) / (float_of_nat (List.length l) - 1).

(** The potential scale reduction of the chains of a [(chain, draw)]
    array from the within-chain and between-chain variances; like ArviZ,
    NaN for fewer than 2 chains or fewer than 4 draws. *)
Definition potential_scale_reduction (a : ndarray2) : float :=
  let (c, n) := shape2 a in
  if ((c <? 2)%nat || (n <? 4)%nat)%bool then nan
  else
    let w := fmean (map fvar (cells2 a)) in
    let b_over_n := fvar (map fmean (cells2 a)) in
    let nf := float_of_nat n in
    PrimFloat.sqrt (((nf - 1) / nf * w + b_over_n) / w).

Definition rhat (a : ndarray2) : result float :=
  Ok (potential_scale_reduction a).

(** A one-dimensional positions array from its [(chain, draw)] values. *)
Definition positions_1d (chains : list (list float)) : ndarray3 :=
  mkArr3 (List.length chains, List.length (hd [] chains), 1%nat)
         (map (map (fun v => [v])) chains).

(** 2 chains of 8 draws. *)
Definition positions_2x8 : ndarray3 :=
  positions_1d [[0; 1; 0; 1; 0; 1; 0; 9]; [1; 0; 1; 0; 1; 0; 1; 0]].

(** 2 chains of 14 draws. *)
Definition positions_2x14 : ndarray3 :=
  positions_1d [[0; 1; 0; 1; 0; 1; 0; 9; 2; 1; 0; 1; 3; 1];
                [1; 0; 1; 0; 1; 0; 1; 0; 1; 2; 1; 0; 1; 0]].

(** A single chain of 8 draws. *)
Definition positions_1x8 : ndarray3 :=
  positions_1d [[0; 1; 0; 1; 0; 1; 0; 9]].

(** 2 chains of 3 draws. *)
Definition positions_2x3 : ndarray3 :=
  positions_1d [[0; 1; 0]; [1; 0; 2]].
End StandIn.

Definition always_ok (file : string) : bool := true.

(** A backend that cannot write the first artifact of the run. *)
Definition all_but_acceptance_plot (file : string) : bool :=
  negb (String.eqb file "out/results_1/acceptance_and_logprob.pdf").

(** A file system with [out/results_1], [out/results_3] and a regular file
    next to them. *)
Definition world_with_versions : world :=
  mkWorld (Dir [("out", Dir [("results_1", Dir []);
                             ("notes.txt", File);
                             ("results_3", Dir [])])])
          [].


Definition empty_world : world := mkWorld (Dir []) [].

(** ** Names of versions *)

(** [f"{prefix}_{n}"] *)
Definition version_name (prefix : string) (n : N) : string :=
  prefix ++ "_" ++ str_of_N n.

(** The number that follows the versions among the entries of a
    directory. *)
Definition next_version (prefix : string) (es : list (string * node)) : N :=
  (max_default0 (version_numbers prefix es) + 1)%N.

(** ** Changing one option *)

Definition set_mala_step_size (p : params) (s : float) : params :=
  {| experiment_type := experiment_type p;
     n_dims := n_dims p;
     outdir := outdir p;
     n_local_steps := n_local_steps p;
     n_global_steps := n_global_steps p;
     n_training_loops := n_training_loops p;
     mala_step_size := s;
     n_production_loops := n_production_loops p;
     n_epochs := n_epochs p;
     n_chains := n_chains p;
     rq_spline_hidden_units := rq_spline_hidden_units p;
     rq_spline_n_bins := rq_spline_n_bins p;
     rq_spline_n_layers := rq_spline_n_layers p;
     learning_rate := learning_rate p;
     batch_size := batch_size p;
     n_max_examples := n_max_examples p;
     show_initial_positions := show_initial_positions p |}.

(** The draws that the windows of [plot_rhat_diagnostics] can reach. *)
Definition covered_draws (a : ndarray3) : nat :=
  (n_step_group * (n_draw_axis a / n_step_group))%nat.

(** A sampler that fails. *)
Definition extern_with_failing_sampler : Extern :=
  {| prng_key := list Z;
     nf_model := unit;
     PRNGKey := fun seed => [seed];
     random_split := fun k => ((k ++ [0%Z])%list, (k ++ [1%Z])%list);
     random_normal := fun _ shape =>
       Ok (repeat (repeat 0%float (Z.to_nat (snd shape))) (Z.to_nat (fst shape)));
     flowmc_sample := fun _ => Raise (LibraryError "RuntimeError");
     model_sample := fun _ _ _ => Ok [];
     az_rhat := fun _ a => StandIn.rhat a;
     savefig_ok := always_ok;
     draw_diagnostics := fun _ _ _ => Ok tt;
     array_reshape := flatten_chains;
     corner_corner := fun _ _ => Ok tt;
     draw_loss := fun _ => Ok tt;
     draw_trace := fun _ _ _ => Ok tt;
     draw_table := fun _ _ => Ok tt |}.

(** 2 chains of 8 draws that differ from [StandIn.positions_2x8] in the
    last draw only. *)
Definition positions_2x8_other_tail : ndarray3 :=
  StandIn.positions_1d
    [[0; 1; 0; 1; 0; 1; 0; 250]%float; [1; 0; 1; 0; 1; 0; 1; -4]%float].

(** The summands of the Rosenbrock density: one for every pair of
    consecutive coordinates. *)
Definition rosenbrock_terms (x : list R) : list R :=
  map (fun ab : R * R =>
         let (a, b) := ab in
         (100 * Targets.sq (a - Targets.sq b) + Targets.sq (1 - b))%R)
      (combine (tl x) (removelast x)).

(* ================================================================== *)
(** * Part II. Properties *)
(* ================================================================== *)

(** ** Results and the monad *)

Lemma rmap_length {A B} (f : A -> result B) (l : list A) (ys : list B) :
  rmap f l = Ok ys -> List.length ys = List.length l.
Proof.
  revert ys; induction l as [|x tl IH]; intros ys H; simpl in H.
  - injection H as <-. reflexivity.
  - destruct (f x) as [y|e]; simpl in H; [|discriminate].
    destruct (rmap f tl) as [ys'|e]; simpl in H; [|discriminate].
    injection H as <-. simpl. f_equal. apply IH. reflexivity.
Qed.

Lemma rmap_nth {A B} (f : A -> result B) (l : list A) (ys : list B) :
  rmap f l = Ok ys ->
  forall i x, nth_error l i = Some x ->
  exists y, nth_error ys i = Some y /\ f x = Ok y.
Proof.
  revert ys; induction l as [|a tl IH]; intros ys H i x Hi.
  - destruct i; discriminate.
  - simpl in H.
    destruct (f a) as [y|e] eqn:Hfa; simpl in H; [|discriminate].
    destruct (rmap f tl) as [ys'|e] eqn:Htl; simpl in H; [|discriminate].
    injection H as <-.
    destruct i as [|i]; simpl in Hi |- *.
    + injection Hi as <-. exists y. split; [reflexivity | assumption].
    + apply (IH ys' eq_refl i x Hi).
Qed.

Lemma rmap_total {A B} (f : A -> result B) (l : list A) :
  (forall x, In x l -> exists y, f x = Ok y) ->
  exists ys, rmap f l = Ok ys.
Proof.
  induction l as [|a tl IH]; intros H; simpl.
  - exists []. reflexivity.
  - destruct (H a (or_introl eq_refl)) as [y Hy]. rewrite Hy. simpl.
    destruct IH as [ys Hys].
    + intros x Hx. apply H. right. assumption.
    + rewrite Hys. simpl. exists (y :: ys). reflexivity.
Qed.

Lemma rmap_raise {A B} (f : A -> result B) (l : list A) (e : exn) :
  rmap f l = Raise e -> exists x, In x l /\ f x = Raise e.
Proof.
  induction l as [|a tl IH]; intros H; simpl in H.
  - discriminate.
  - destruct (f a) as [y|e'] eqn:Hfa; simpl in H.
    + destruct (rmap f tl) as [ys|e'] eqn:Htl; simpl in H; [discriminate|].
      injection H as ->. destruct (IH eq_refl) as [x [Hin Hx]].
      exists x. split; [right; assumption | assumption].
    + injection H as ->. exists a. split; [left; reflexivity | assumption].
Qed.

(** ** Paths *)

Lemma components_app_slash (a b cur : string) :
  components (a ++ String "/" b) cur = (components a cur ++ components b "")%list.
Proof.
  revert cur; induction a as [|c a IH]; intros cur; simpl.
  - destruct (String.eqb cur ""); reflexivity.
  - destruct (Ascii.eqb c "/").
    + destruct (String.eqb cur ""); rewrite IH; reflexivity.
    + apply IH.
Qed.

Lemma append_empty_r (s : string) : (s ++ "")%string = s.
Proof. induction s as [|c s IH]; simpl; [reflexivity | rewrite IH; reflexivity]. Qed.

Lemma append_assoc (a b c : string) : ((a ++ b) ++ c = a ++ (b ++ c))%string.
Proof. induction a as [|x a IH]; simpl; [reflexivity | rewrite IH; reflexivity]. Qed.

Lemma append_eq_empty (a b : string) : (a ++ b)%string = "" -> a = "" /\ b = "".
Proof. destruct a; simpl; intros H; [auto | discriminate]. Qed.

Lemma components_no_slash (s cur : string) :
  no_slash s = true ->
  components s cur =
    if String.eqb (cur ++ s) "" then [] else [(cur ++ s)%string].
Proof.
  revert cur; induction s as [|c s IH]; intros cur H; simpl.
  - rewrite append_empty_r. reflexivity.
  - simpl in H. apply andb_prop in H as [Hc Hs].
    apply negb_true_iff in Hc. rewrite Hc.
    rewrite (IH _ Hs). rewrite append_assoc. reflexivity.
Qed.

Lemma components_name (name : string) :
  entry_name_ok name = true -> path_components name = [name].
Proof.
  unfold entry_name_ok, path_components. intros H.
  apply andb_prop in H as [Hne Hns].
  rewrite (components_no_slash _ _ Hns). simpl.
  apply negb_true_iff in Hne. rewrite Hne. reflexivity.
Qed.

Lemma ends_with_slash_split (a : string) :
  ends_with_slash a = true -> exists a0, a = (a0 ++ "/")%string.
Proof.
  induction a as [|c a IH]; simpl; [discriminate|].
  destruct a as [|d a'].
  - intros H. apply Ascii.eqb_eq in H. subst c. exists "". reflexivity.
  - intros H. destruct (IH H) as [a0 Ha0]. exists (String c a0).
    simpl. rewrite <- Ha0. reflexivity.
Qed.

Lemma no_slash_starts (s : string) :
  no_slash s = true -> starts_with_slash s = false.
Proof.
  destruct s as [|c s]; simpl; [reflexivity|].
  intros H. apply andb_prop in H as [Hc _]. apply negb_true_iff in Hc. exact Hc.
Qed.

(** The components of [join(base, name)] for an entry name. *)
Lemma components_join (base name : string) :
  base <> "" -> entry_name_ok name = true ->
  path_components (os_path_join base name) = (path_components base ++ [name])%list.
Proof.
  intros Hb Hn. pose proof (components_name _ Hn) as Hcn.
  unfold entry_name_ok in Hn. apply andb_prop in Hn as [Hne Hns].
  unfold os_path_join. rewrite (no_slash_starts _ Hns).
  apply String.eqb_neq in Hb. rewrite Hb. simpl.
  unfold path_components in *.
  destruct (ends_with_slash base) eqn:He.
  - destruct (ends_with_slash_split _ He) as [a0 ->].
    rewrite append_assoc. simpl.
    rewrite !components_app_slash. rewrite Hcn. simpl.
    rewrite app_nil_r. reflexivity.
  - simpl. rewrite components_app_slash. rewrite Hcn. reflexivity.
Qed.

Lemma join_not_empty (base name : string) :
  name <> "" -> os_path_join base name <> "".
Proof.
  intros Hn. unfold os_path_join.
  destruct (starts_with_slash name); [assumption|].
  destruct (String.eqb base "" || ends_with_slash base).
  - intros H. apply append_eq_empty in H as [_ H]. contradiction.
  - intros H. apply append_eq_empty in H as [_ H]. discriminate.
Qed.

(** ** The directory tree *)

Lemma resolve_at_app (n : node) (cs1 cs2 : list string) :
  resolve_at n (cs1 ++ cs2) =
    match resolve_at n cs1 with
    | Some m => resolve_at m cs2
    | None => None
    end.
Proof.
  revert n; induction cs1 as [|c cs1 IH]; intros n; simpl.
  - reflexivity.
  - destruct n as [|es]; [reflexivity|].
    destruct (lookup_entry c es); [apply IH | reflexivity].
Qed.

Lemma lookup_entry_in (es : list (string * node)) (name : string) (n : node) :
  NoDup (map fst es) -> In (name, n) es -> lookup_entry name es = Some n.
Proof.
  induction es as [|[k m] tl IH]; intros Hnd Hin; simpl in *.
  - contradiction.
  - inversion Hnd as [|? ? Hk Htl]; subst.
    destruct Hin as [Heq | Hin].
    + injection Heq as -> ->. rewrite String.eqb_refl. reflexivity.
    + destruct (String.eqb k name) eqn:Hkn.
      * apply String.eqb_eq in Hkn. subst k. exfalso. apply Hk.
        change name with (fst (name, n)). apply in_map. assumption.
      * apply IH; assumption.
Qed.

Lemma lookup_set_entry (c : string) (n : node) (es : list (string * node)) :
  lookup_entry c (set_entry c n es) = Some n.
Proof.
  induction es as [|[k m] tl IH]; simpl.
  - rewrite String.eqb_refl. reflexivity.
  - destruct (String.eqb k c) eqn:Hk; simpl; rewrite Hk; [reflexivity | exact IH].
Qed.

Lemma lookup_app_fresh (c : string) (n : node) (es : list (string * node)) :
  lookup_entry c es = None -> lookup_entry c (es ++ [(c, n)]) = Some n.
Proof.
  induction es as [|[k m] tl IH]; simpl; intros H.
  - rewrite String.eqb_refl. reflexivity.
  - destruct (String.eqb k c); [discriminate | apply IH; assumption].
Qed.

Lemma resolve_fresh_dirs (cs : list string) :
  resolve_at (fresh_dirs cs) cs = Some (Dir []).
Proof.
  induction cs as [|c cs IH]; simpl; [reflexivity|].
  rewrite String.eqb_refl. exact IH.
Qed.


(** Resolving [join(base, name)] looks the name up in the listing of
    [base]. *)
Lemma resolve_join (root : node) (base name : string) (es : list (string * node)) :
  resolve root base = Some (Dir es) -> entry_name_ok name = true ->
  resolve root (os_path_join base name) = lookup_entry name es.
Proof.
  intros Hb Hn. unfold resolve in *.
  destruct (String.eqb base "") eqn:Hbe; [discriminate|].
  apply String.eqb_neq in Hbe.
  assert (Hne : name <> "").
  { unfold entry_name_ok in Hn. apply andb_prop in Hn as [Hn _].
    apply negb_true_iff in Hn. apply String.eqb_neq. exact Hn. }
  pose proof (join_not_empty base name Hne) as Hj.
  apply String.eqb_neq in Hj. rewrite Hj.
  rewrite (components_join _ _ Hbe Hn), resolve_at_app, Hb. simpl.
  destruct (lookup_entry name es); reflexivity.
Qed.

Lemma isdir_filter_subdirectories (root : node) (base : string)
      (es : list (string * node)) :
  resolve root base = Some (Dir es) -> entries_ok es ->
  filter (fun d => path_isdir root (os_path_join base d)) (map fst es)
  = subdirectories es.
Proof.
  intros Hb [Hnd Hok]. unfold subdirectories.
  assert (Hall : forall e, In e es ->
            path_isdir root (os_path_join base (fst e)) = is_dir_node (snd e)).
  { intros [name n] Hin. simpl.
    rewrite Forall_forall in Hok. specialize (Hok _ Hin). simpl in Hok.
    unfold path_isdir. rewrite (resolve_join _ _ _ _ Hb Hok).
    rewrite (lookup_entry_in _ _ _ Hnd Hin). destruct n; reflexivity. }
  clear Hnd Hok Hb. induction es as [|e tl IH]; simpl; [reflexivity|].
  rewrite (Hall e (or_introl eq_refl)).
  destruct (is_dir_node (snd e)); simpl; rewrite IH; auto;
    intros e' He'; apply Hall; right; assumption.
Qed.

Lemma forall_chars_app (f : ascii -> bool) (a b : string) :
  forall_chars f (a ++ b) = forall_chars f a && forall_chars f b.
Proof.
  induction a as [|c a IH]; simpl; [reflexivity|].
  rewrite IH. apply andb_assoc.
Qed.

Lemma versioned_name_ok (prefix suffix : string) :
  no_slash prefix = true -> no_slash suffix = true -> suffix <> "" ->
  entry_name_ok (prefix ++ suffix) = true.
Proof.
  intros Hp Hs Hne. unfold entry_name_ok.
  apply andb_true_intro. split.
  - apply negb_true_iff. apply String.eqb_neq. intros H.
    apply append_eq_empty in H as [_ H]. contradiction.
  - unfold no_slash in *. rewrite forall_chars_app, Hp, Hs. reflexivity.
Qed.

(** ** The pattern [prefix_(\d+)] *)

Lemma strip_prefix_spec (p s r : string) :
  strip_prefix p s = Some r <-> s = (p ++ r)%string.
Proof.
  revert s; induction p as [|a p IH]; intros s; simpl.
  - split; [intros H; injection H as ->; reflexivity | intros ->; reflexivity].
  - destruct s as [|b s]; [split; discriminate|].
    destruct (Ascii.eqb a b) eqn:Hab.
    + apply Ascii.eqb_eq in Hab. subst b. rewrite IH.
      split; [intros ->; reflexivity | intros H; injection H as ->; reflexivity].
    + apply Ascii.eqb_neq in Hab.
      split; [discriminate | intros H; injection H as -> _; contradiction].
Qed.

Lemma take_digits_split (s : string) :
  exists rest,
    s = (take_digits s ++ rest)%string
    /\ forall_chars is_digit (take_digits s) = true
    /\ head_is_digit rest = false.
Proof.
  induction s as [|c s [rest [Hs [Hd Hr]]]]; simpl.
  - exists "". repeat split.
  - destruct (is_digit c) eqn:Hc.
    + exists rest. simpl. rewrite Hc, Hd, <- Hs. repeat split. exact Hr.
    + exists (String c s). simpl. rewrite Hc. repeat split.
Qed.

Lemma take_digits_app (ds rest : string) :
  forall_chars is_digit ds = true -> head_is_digit rest = false ->
  take_digits (ds ++ rest) = ds.
Proof.
  intros Hd Hr. induction ds as [|c ds IH]; simpl in *.
  - destruct rest as [|c r]; simpl in *; [reflexivity | rewrite Hr; reflexivity].
  - apply andb_prop in Hd as [Hc Hd]. rewrite Hc, (IH Hd). reflexivity.
Qed.

(** A name matches exactly when it begins with the prefix, an underscore
    and a non-empty run of digits; the group is the longest such run.
    What follows the digits is not looked at. *)
Lemma re_match_group1_spec (prefix name ds : string) :
  re_match_group1 prefix name = Some ds <->
  exists rest,
    name = (prefix ++ "_" ++ ds ++ rest)%string
    /\ ds <> ""
    /\ forall_chars is_digit ds = true
    /\ head_is_digit rest = false.
Proof.
  unfold re_match_group1. split.
  - destruct (strip_prefix (prefix ++ "_") name) as [tail|] eqn:Hp; [|discriminate].
    apply strip_prefix_spec in Hp.
    destruct (take_digits_split tail) as [rest [Ht [Hd Hr]]].
    destruct (take_digits tail) as [|c ds'] eqn:Htd; [discriminate|].
    intros H. injection H as <-. exists rest.
    split; [|split; [discriminate | split; assumption]].
    rewrite Hp, Ht, append_assoc. reflexivity.
  - intros [rest [Hn [Hne [Hd Hr]]]].
    assert (Hp : strip_prefix (prefix ++ "_") name = Some (ds ++ rest)%string).
    { apply strip_prefix_spec. rewrite Hn, append_assoc. reflexivity. }
    rewrite Hp, (take_digits_app _ _ Hd Hr).
    destruct ds; [contradiction | reflexivity].
Qed.

(** What the pattern accepts and what it does not. *)
Example re_match_examples :
  re_match_group1 "results" "results_3" = Some "3"
  /\ re_match_group1 "results" "results_007" = Some "007"
  /\ int_of_digits "007" = 7%N
  /\ re_match_group1 "results" "results_3_old" = Some "3"
  /\ re_match_group1 "results" "results_" = None
  /\ re_match_group1 "results" "my_results_1" = None
  /\ re_match_group1 "results" "results-1" = None.
Proof. repeat split. Qed.

(** ** Output directory versioning *)



(** ** Slices of the positions array *)

Lemma firstn_whole {A} (k : nat) (l : list A) :
  (List.length l <= k)%nat -> firstn k l = l.
Proof. intros H. apply firstn_all2. exact H. Qed.

(** A window that covers all the draws is the full slice. *)
Lemma window_slice_full (a : ndarray3) (k j : nat) :
  well_shaped a -> (j < n_dim_axis a)%nat -> (n_draw_axis a <= k)%nat ->
  window_slice a k j = Ok (dim_slice a j).
Proof.
  intros [_ Hrows] Hj Hk. unfold window_slice, dim_slice.
  apply Nat.ltb_lt in Hj. rewrite Hj.
  rewrite (Nat.min_r _ _ Hk). do 2 f_equal.
  apply map_ext_in. intros chain Hin.
  rewrite Forall_forall in Hrows. destruct (Hrows _ Hin) as [Hlen _].
  rewrite firstn_whole; [reflexivity | rewrite Hlen; exact Hk].
Qed.

(** A window of no draws does not depend on the dimension. *)
Lemma window_slice_empty (a : ndarray3) (j : nat) :
  (j < n_dim_axis a)%nat -> window_slice a 0 j = Ok (empty_window a).
Proof.
  intros Hj. unfold window_slice, empty_window.
  apply Nat.ltb_lt in Hj. rewrite Hj. reflexivity.
Qed.

Lemma nth_error_seq0 (n i : nat) : (i < n)%nat -> nth_error (seq 0 n) i = Some i.
Proof.
  intros H. rewrite nth_error_nth' with (d := 0%nat) by (rewrite length_seq; exact H).
  rewrite seq_nth by exact H. reflexivity.
Qed.

Lemma nth_of_nth_error {A} (l : list A) (i : nat) (x d : A) :
  nth_error l i = Some x -> nth i l d = x.
Proof. intros H. apply nth_error_nth. exact H. Qed.

Lemma rmap_const {A B} (f : A -> result B) (l : list A) (y : B) :
  (forall x, In x l -> f x = Ok y) -> rmap f l = Ok (repeat y (List.length l)).
Proof.
  induction l as [|a tl IH]; intros H; simpl; [reflexivity|].
  rewrite (H a (or_introl eq_refl)). simpl.
  rewrite IH by (intros x Hx; apply H; right; exact Hx). reflexivity.
Qed.

Lemma np_array_shape_rows {A} (rows : list (list A)) (n m : nat) :
  List.length rows = n -> (1 <= n)%nat ->
  (forall row, In row rows -> List.length row = m) ->
  np_array_shape rows = [n; m].
Proof.
  intros Hn Hpos Hrow. destruct rows as [|r tl]; simpl in *; [lia|].
  rewrite (Hrow r (or_introl eq_refl)), Hn. reflexivity.
Qed.

Lemma rmap_in {A B} (f : A -> result B) (l : list A) (ys : list B) :
  rmap f l = Ok ys -> forall y, In y ys -> exists x, In x l /\ f x = Ok y.
Proof.
  revert ys; induction l as [|a tl IH]; intros ys H y Hy; simpl in H.
  - injection H as <-. contradiction.
  - destruct (f a) as [b|e] eqn:Hfa; simpl in H; [|discriminate].
    destruct (rmap f tl) as [ys'|e] eqn:Htl; simpl in H; [|discriminate].
    injection H as <-. destruct Hy as [<- | Hy].
    + exists a. split; [left; reflexivity | exact Hfa].
    + destruct (IH ys' eq_refl y Hy) as [x [Hx Hfx]].
      exists x. split; [right; exact Hx | exact Hfx].
Qed.

(** ** The R-hat window trace *)

(** The statistic of one window, as the comprehension computes it. *)
Lemma window_value_total {E : Extern} (chains : ndarray3) (k j : nat) :
  (forall a, exists v, az_rhat "rank" a = Ok v) ->
  (j < n_dim_axis chains)%nat ->
  exists v, rbind (window_slice chains k j) (az_rhat "rank") = Ok v.
Proof.
  intros Hlib Hj. unfold window_slice.
  apply Nat.ltb_lt in Hj. rewrite Hj. simpl. apply Hlib.
Qed.

Lemma rhat_windows_total {E : Extern} (chains : ndarray3) (dims : Z) :
  (forall a, exists v, az_rhat "rank" a = Ok v) ->
  (Z.to_nat dims <= n_dim_axis chains)%nat ->
  exists rows, rhat_windows chains dims = Ok rows.
Proof.
  intros Hlib Hd. unfold rhat_windows. apply rmap_total.
  intros j Hj. apply rmap_total. intros i _.
  apply window_value_total; [exact Hlib|].
  unfold py_range in Hj. apply in_seq in Hj. lia.
Qed.

Lemma rhat_windows_entry {E : Extern} (chains : ndarray3) (dims : Z)
      (rows : list (list float)) (j w : nat) :
  rhat_windows chains dims = Ok rows ->
  (j < Z.to_nat dims)%nat -> (1 <= w <= n_step_group)%nat ->
  exists a,
    window_slice chains (w * (n_draw_axis chains / n_step_group)) j = Ok a
    /\ az_rhat "rank" a = Ok (trace_entry rows j w).
Proof.
  intros Hrows Hj Hw. unfold rhat_windows in Hrows.
  destruct (rmap_nth _ _ _ Hrows j j (nth_error_seq0 _ _ Hj)) as [row [Hrow Hin]].
  assert (Hw' : (w - 1 < n_step_group)%nat) by lia.
  destruct (rmap_nth _ _ _ Hin (w - 1)%nat (w - 1)%nat (nth_error_seq0 _ _ Hw'))
    as [v [Hv Hval]].
  replace (w - 1 + 1)%nat with w in Hval by lia.
  destruct (window_slice chains (w * (n_draw_axis chains / n_step_group)) j)
    as [a|e] eqn:Hs; simpl in Hval; [|discriminate].
  exists a. split; [reflexivity|].
  unfold trace_entry. rewrite (nth_of_nth_error _ _ _ _ Hrow).
  rewrite (nth_of_nth_error _ _ _ _ Hv). exact Hval.
Qed.

Lemma rhat_windows_shape {E : Extern} (chains : ndarray3) (dims : Z)
      (rows : list (list float)) :
  rhat_windows chains dims = Ok rows -> (1 <= dims)%Z ->
  np_array_shape rows = [Z.to_nat dims; n_step_group].
Proof.
  intros Hrows Hd. apply np_array_shape_rows.
  - rewrite (rmap_length _ _ _ Hrows). unfold py_range. apply length_seq.
  - lia.
  - intros row Hin. destruct (rmap_in _ _ _ Hrows row Hin) as [j [_ Hj]].
    rewrite (rmap_length _ _ _ Hj). apply length_seq.
Qed.

(** C1 (as amended).  With a library that returns a value for every array,
    the window matrix of [plot_rhat_diagnostics] exists, has the shape
    [(dimensions, 7)], its entry for dimension [j] and window [w] in 1..7 is
    the rank R-hat of the first [w * floor(total_draws / 7)] draws of that
    dimension, and when 7 divides [total_draws] its last window is exactly
    the full-data value that [compute_rhat] returns. *)
Theorem rhat_trace_windows {E : Extern} (chains : ndarray3) (dims : Z) :
  well_shaped chains ->
  Z.to_nat dims = n_dim_axis chains ->
  (1 <= dims)%Z ->
  (forall a, exists v, az_rhat "rank" a = Ok v) ->
  exists rows,
    rhat_windows chains dims = Ok rows
    /\ np_array_shape rows = [n_dim_axis chains; n_step_group]
    /\ (forall j w,
          (j < n_dim_axis chains)%nat -> (1 <= w <= n_step_group)%nat ->
          exists a,
            window_slice chains (w * (n_draw_axis chains / n_step_group)) j = Ok a
            /\ az_rhat "rank" a = Ok (trace_entry rows j w))
    /\ ((n_draw_axis chains mod n_step_group)%nat = 0%nat ->
        forall full,
          az_rhat_dataset "rank" chains = Ok full ->
          forall j, (j < n_dim_axis chains)%nat ->
            trace_entry rows j n_step_group = nth j full nan).
Proof.
  intros Hwf Hdims Hpos Hlib.
  destruct (rhat_windows_total chains dims Hlib) as [rows Hrows]; [lia|].
  exists rows. split; [exact Hrows|]. split; [|split].
  - rewrite <- Hdims. apply (rhat_windows_shape _ _ _ Hrows Hpos).
  - intros j w Hj Hw. rewrite <- Hdims in Hj.
    apply (rhat_windows_entry _ _ _ _ _ Hrows Hj Hw).
  - intros Hdiv full Hfull j Hj.
    assert (Hj' : (j < Z.to_nat dims)%nat) by lia.
    assert (Hlast : (1 <= n_step_group <= n_step_group)%nat)
      by (unfold n_step_group; lia).
    destruct (rhat_windows_entry _ _ _ _ _ Hrows Hj' Hlast) as [a [Hslice Hval]].
    rewrite window_slice_full in Hslice; [|exact Hwf|exact Hj|].
    + injection Hslice as <-.
      unfold az_rhat_dataset in Hfull.
      destruct (rmap_nth _ _ _ Hfull j j (nth_error_seq0 _ _ Hj)) as [v [Hv Hfv]].
      rewrite (nth_of_nth_error _ _ _ _ Hv).
      rewrite Hval in Hfv. injection Hfv as ->. reflexivity.
    + unfold n_step_group in *.
      pose proof (Nat.div_mod_eq (n_draw_axis chains) 7). lia.
Qed.

(** C1's witness: 2 chains of 14 draws in one dimension. *)
Lemma rhat_trace_windows_witness :
  exists rows,
    @rhat_windows (example_extern StandIn.positions_2x14 StandIn.rhat always_ok)
                  StandIn.positions_2x14 1 = Ok rows
    /\ np_array_shape rows = [1%nat; 7%nat].
Proof.
  destruct (@rhat_trace_windows
              (example_extern StandIn.positions_2x14 StandIn.rhat always_ok)
              StandIn.positions_2x14 1) as [rows [H1 [H2 _]]].
  - split; [reflexivity|]. repeat constructor.
  - reflexivity.
  - lia.
  - intros a. eexists. reflexivity.
  - exists rows. split; [exact H1 | exact H2].
Defined.

(** C1 as stated fails: for 2 chains of 8 draws the last of the 7 windows
    holds the statistic of the first 7 draws, which is not the full-data
    value. *)
Lemma last_window_differs_from_full_data :
  ~ @last_window_is_full_data
      (example_extern StandIn.positions_2x8 StandIn.rhat always_ok)
      StandIn.positions_2x8 1.
Proof.
  unfold last_window_is_full_data. intros H.
  specialize (H _ _ eq_refl eq_refl 0%nat (Nat.lt_0_succ 0)).
  vm_compute in H. discriminate.
Qed.

(** C7.  With fewer draws than the 7 windows every window is the slice
    without draws; when the library returns a value [v] for it (ArviZ: NaN)
    the trace does not fail and is the [(dimensions, 7)] matrix filled with
    [v]. *)
Theorem rhat_trace_few_draws {E : Extern} (chains : ndarray3) (dims : Z) (v : float) :
  (n_draw_axis chains < n_step_group)%nat ->
  (1 <= dims)%Z ->
  (Z.to_nat dims <= n_dim_axis chains)%nat ->
  az_rhat "rank" (empty_window chains) = Ok v ->
  rhat_windows chains dims = Ok (repeat (repeat v n_step_group) (Z.to_nat dims))
  /\ np_array_shape (repeat (repeat v n_step_group) (Z.to_nat dims))
     = [Z.to_nat dims; n_step_group].
Proof.
  intros Hfew Hpos Hd Hv. split.
  - unfold rhat_windows. rewrite (Nat.div_small _ _ Hfew).
    rewrite (rmap_const _ (py_range dims) (repeat v n_step_group)).
    + unfold py_range. rewrite length_seq. reflexivity.
    + intros j Hj. rewrite (rmap_const _ (seq 0 n_step_group) v).
      * rewrite length_seq. reflexivity.
      * intros i _. rewrite Nat.mul_0_r.
        rewrite window_slice_empty; [exact Hv|].
        unfold py_range in Hj. apply in_seq in Hj. lia.
  - apply np_array_shape_rows.
    + apply repeat_length.
    + lia.
    + intros row Hin. apply repeat_spec in Hin. subst row. apply repeat_length.
Qed.

(** C7's witness: 2 chains of 3 draws. *)
Lemma rhat_trace_few_draws_witness :
  @rhat_windows (example_extern StandIn.positions_2x3 StandIn.rhat always_ok)
                StandIn.positions_2x3 1 = Ok [repeat nan 7].
Proof.
  apply (@rhat_trace_few_draws
           (example_extern StandIn.positions_2x3 StandIn.rhat always_ok)
           StandIn.positions_2x3 1 nan).
  - vm_compute. lia.
  - lia.
  - vm_compute. lia.
  - reflexivity.
Defined.

(** ** No chain-count check *)

Lemma az_rhat_dataset_raise {E : Extern} (method : string) (chains : ndarray3) (e : exn) :
  az_rhat_dataset method chains = Raise e ->
  exists j, (j < n_dim_axis chains)%nat /\ az_rhat method (dim_slice chains j) = Raise e.
Proof.
  unfold az_rhat_dataset. intros H.
  destruct (rmap_raise _ _ _ H) as [j [Hj Hr]].
  exists j. split; [apply in_seq in Hj; lia | exact Hr].
Qed.

Lemma rhat_windows_raise {E : Extern} (chains : ndarray3) (dims : Z) (e : exn) :
  rhat_windows chains dims = Raise e ->
  e = IndexError \/ exists a, az_rhat "rank" a = Raise e.
Proof.
  unfold rhat_windows. intros H.
  destruct (rmap_raise _ _ _ H) as [j [_ Hrow]].
  destruct (rmap_raise _ _ _ Hrow) as [i [_ Hval]].
  unfold window_slice in Hval.
  destruct (j <? n_dim_axis chains)%nat; simpl in Hval.
  - right. eexists. exact Hval.
  - left. injection Hval as <-. reflexivity.
Qed.

(** C2 (as amended).  For a positions array with fewer than 2 chains the
    R-hat computations make no check of their own: they fail only when the
    library call fails, with the library's exception (the window trace also
    on a dimension outside the array), and they return values whenever the
    library does. *)
Theorem rhat_without_chain_guard {E : Extern} (method : string)
        (chains : ndarray3) (dims : Z) :
  (n_chain_axis chains < 2)%nat ->
  (forall e, az_rhat_dataset method chains = Raise e ->
             exists j, (j < n_dim_axis chains)%nat
                       /\ az_rhat method (dim_slice chains j) = Raise e)
  /\ (forall e, rhat_windows chains dims = Raise e ->
                e = IndexError \/ exists a, az_rhat "rank" a = Raise e)
  /\ ((forall a, exists v, az_rhat method a = Ok v) ->
      exists full, az_rhat_dataset method chains = Ok full)
  /\ ((forall a, exists v, az_rhat "rank" a = Ok v) ->
      (Z.to_nat dims <= n_dim_axis chains)%nat ->
      exists rows, rhat_windows chains dims = Ok rows).
Proof.
  intros _. split; [|split; [|split]].
  - apply az_rhat_dataset_raise.
  - apply rhat_windows_raise.
  - intros Hlib. unfold az_rhat_dataset. apply rmap_total.
    intros j _. apply Hlib.
  - apply rhat_windows_total.
Qed.

(** C2's witness: a single chain of 8 draws. *)
Lemma rhat_without_chain_guard_witness :
  exists full,
    @az_rhat_dataset (example_extern StandIn.positions_1x8 StandIn.rhat always_ok)
                     "rank" StandIn.positions_1x8 = Ok full.
Proof.
  apply (proj1 (proj2 (proj2
           (@rhat_without_chain_guard
              (example_extern StandIn.positions_1x8 StandIn.rhat always_ok)
              "rank" StandIn.positions_1x8 1 ltac:(vm_compute; lia))))).
  intros a. eexists. reflexivity.
Defined.

(** C2 as stated fails: with a single chain and a library that answers NaN
    for it, as ArviZ does, both computations return NaN values instead of
    failing. *)
Lemma single_chain_returns_nan :
  ~ @single_chain_is_rejected
      (example_extern StandIn.positions_1x8 StandIn.rhat always_ok)
      StandIn.positions_1x8 1.
Proof.
  unfold single_chain_is_rejected, fails_with. intros H.
  destruct H as [H _]; [vm_compute; lia|].
  vm_compute in H. discriminate.
Qed.

(** ** The dual-moon density *)

(** C8.  For vectors with at least two coordinates the dual-moon
    log-density is a function of the first two coordinates and the
    Euclidean norm only. *)
Theorem dual_moon_depends_on_x0_x1_norm (x y : list R) :
  (2 <= List.length x)%nat -> (2 <= List.length y)%nat ->
  nth 0 x 0%R = nth 0 y 0%R ->
  nth 1 x 0%R = nth 1 y 0%R ->
  Targets.norm x = Targets.norm y ->
  call_target target_dual_moon x = call_target target_dual_moon y
  /\ exists v, call_target target_dual_moon x = Ok v.
Proof.
  intros Hx Hy H0 H1 Hn. simpl. unfold Targets.target_dual_moon.
  rewrite Hn.
  assert (Hix : forall (z : list R) i, (2 <= List.length z)%nat -> (i < 2)%nat ->
                                       Targets.index z i = Ok (nth i z 0%R)).
  { intros z i Hz Hi. unfold Targets.index.
    destruct z as [|z0 z']; [simpl in Hz; lia|].
    rewrite Nat.min_l by lia. reflexivity. }
  rewrite !Hix by lia. rewrite H0, H1. simpl.
  split; [reflexivity | eexists; reflexivity].
Qed.

(** C8's witness: [(1, 2, 2)] and [(1, 2, -2, 0)] have the same first two
    coordinates and the same norm. *)
Lemma dual_moon_depends_on_x0_x1_norm_witness :
  call_target target_dual_moon [1; 2; 2]%R
  = call_target target_dual_moon [1; 2; -2; 0]%R.
Proof.
  apply (dual_moon_depends_on_x0_x1_norm [1; 2; 2]%R [1; 2; -2; 0]%R).
  - simpl. lia.
  - simpl. lia.
  - reflexivity.
  - reflexivity.
  - unfold Targets.norm, Targets.fsum, Targets.sq. simpl. f_equal. lra.
Defined.

(** The Gaussian density at the origin and the Rosenbrock density at the
    vector of ones are 0. *)
Lemma target_normal_origin (n : nat) :
  call_target target_normal (repeat 0%R n) = Ok 0%R.
Proof.
  simpl. unfold Targets.target_normal. f_equal.
  assert (H : Targets.fsum (map Targets.sq (repeat 0%R n)) = 0%R).
  { induction n as [|n IH]; simpl; [reflexivity|].
    rewrite IH. unfold Targets.sq. lra. }
  rewrite H. lra.
Qed.

(** ** The hyperparameters handed to the sampler *)

(** C3 (the code departs from it).  The bundle's [mala_step_size] is the
    number of epochs, an integer, for every parameter set; it is never the
    user's [mala_step_size]. *)
Theorem mala_step_size_is_n_epochs {E : Extern} (p : params) (t : target)
        (subkey : prng_key) :
  b_mala_step_size (bundle_of p t subkey) = PyInt (n_epochs p)
  /\ b_mala_step_size (bundle_of p t subkey) <> PyFloat (mala_step_size p).
Proof.
  split; [reflexivity | discriminate].
Qed.

(** With the parser's defaults the bundle gets the step size 5. *)
Lemma default_mala_step_size {E : Extern} (kind out : string) (dims : Z)
      (t : target) (subkey : prng_key) :
  b_mala_step_size (bundle_of (parser_defaults kind dims out) t subkey) = PyInt 5.
Proof. reflexivity. Qed.

(** Every other hyperparameter reaches the bundle unchanged. *)
Lemma other_hyperparameters_unchanged {E : Extern} (p : params) (t : target)
      (subkey : prng_key) :
  let b := bundle_of p t subkey in
  b_n_chains b = n_chains p /\ b_n_dims b = n_dims p /\ b_logpdf b = t
  /\ b_n_local_steps b = n_local_steps p
  /\ b_n_global_steps b = n_global_steps p
  /\ b_n_training_loops b = n_training_loops p
  /\ b_n_production_loops b = n_production_loops p
  /\ b_n_epochs b = n_epochs p
  /\ b_rq_spline_hidden_units b
     = [rq_spline_hidden_units p; rq_spline_hidden_units p]
  /\ b_rq_spline_n_bins b = rq_spline_n_bins p
  /\ b_rq_spline_n_layers b = rq_spline_n_layers p
  /\ b_learning_rate b = learning_rate p
  /\ b_batch_size b = batch_size p
  /\ b_n_max_examples b = n_max_examples p.
Proof. simpl. repeat split. Qed.

(** ** The constructor *)

Lemma py_in_supported (kind : string) :
  py_in kind SUPPORTED_EXPERIMENTS = true <->
  kind = "gaussian" \/ kind = "dualmoon" \/ kind = "rosenbrock".
Proof.
  unfold py_in, SUPPORTED_EXPERIMENTS. simpl. rewrite !orb_true_iff.
  rewrite !String.eqb_eq. intuition congruence.
Qed.

Lemma select_target_supported (kind : string) :
  py_in kind SUPPORTED_EXPERIMENTS = true -> exists t, select_target kind = Some t.
Proof.
  intros H. apply py_in_supported in H as [-> | [-> | ->]];
    eexists; reflexivity.
Qed.

(** The constructor once the output directory has been versioned and
    created. *)
Lemma init_after_versioning {E : Extern} (args : params) (w w1 : world)
      (d : string) (root' : node) :
  get_next_available_outdir (outdir args) "results" w = (Ok d, w1) ->
  makedirs (fs w1) d = Ok root' ->
  init args w =
    (if py_in (experiment_type args) SUPPORTED_EXPERIMENTS
     then Ok (mkRunner (set_outdir args d) (select_target (experiment_type args)) None)
     else Raise (ValueError (unsupported_message (experiment_type args))),
     mkWorld root' (saved w1)).
Proof.
  intros Hnext Hmk. unfold init, bind. rewrite Hnext.
  unfold os_makedirs. rewrite Hmk. cbn -[py_in SUPPORTED_EXPERIMENTS].
  destruct (py_in (experiment_type args) SUPPORTED_EXPERIMENTS); reflexivity.
Qed.

(** A runner that was constructed holds the arguments, with the versioned
    directory, and one of the three densities. *)
Lemma init_ok_inv {E : Extern} (args : params) (w w' : world) (r : runner) :
  init args w = (Ok r, w') ->
  py_in (experiment_type args) SUPPORTED_EXPERIMENTS = true
  /\ exists d, r = mkRunner (set_outdir args d)
                            (select_target (experiment_type args)) None.
Proof.
  unfold init, bind. intros H.
  destruct (get_next_available_outdir (outdir args) "results" w) as [[d|e] w1];
    [|discriminate].
  destruct (os_makedirs d w1) as [[u|e] w2]; [|discriminate].
  cbn -[py_in SUPPORTED_EXPERIMENTS] in H.
  destruct (py_in (experiment_type args) SUPPORTED_EXPERIMENTS);
    cbn -[py_in SUPPORTED_EXPERIMENTS] in H.
  - unfold ret in H. injection H as <- _. split; [reflexivity|].
    exists d. reflexivity.
  - unfold raise in H. discriminate.
Qed.

Lemma init_unsupported_fails {E : Extern} (args : params) (w : world) :
  py_in (experiment_type args) SUPPORTED_EXPERIMENTS = false ->
  exists e, fst (init args w) = Raise e.
Proof.
  intros Hkind. destruct (init args w) as [[r|e] w'] eqn:Hinit.
  - apply init_ok_inv in Hinit as [Hin _]. congruence.
  - exists e. reflexivity.
Qed.

(** A failed construction ends [main] with the same exception and world. *)
Lemma main_init_raise {E : Extern} (args : params) (w w' : world) (e : exn) :
  init args w = (Raise e, w') -> main args w = (Raise e, w').
Proof. intros H. unfold main, bind. rewrite H. reflexivity. Qed.

(** C4 (as amended).  The constructor checks the experiment kind only: for
    an unsupported kind it fails, with the [ValueError] of the membership
    test once the output directory has been created, and [main] ends there
    without running the sampler; for a supported kind it succeeds whatever
    the dimensionality is. *)
Theorem init_validates_kind_only {E : Extern} (args : params) (w w1 : world)
        (d : string) (root' : node) :
  get_next_available_outdir (outdir args) "results" w = (Ok d, w1) ->
  makedirs (fs w1) d = Ok root' ->
  (py_in (experiment_type args) SUPPORTED_EXPERIMENTS = false ->
   forall dims,
     init (set_n_dims args dims) w =
       (Raise (ValueError (unsupported_message (experiment_type args))),
        mkWorld root' (saved w1))
     /\ main (set_n_dims args dims) w =
       (Raise (ValueError (unsupported_message (experiment_type args))),
        mkWorld root' (saved w1)))
  /\ (py_in (experiment_type args) SUPPORTED_EXPERIMENTS = true ->
      forall dims,
        init (set_n_dims args dims) w =
          (Ok (mkRunner (set_outdir (set_n_dims args dims) d)
                        (select_target (experiment_type args)) None),
           mkWorld root' (saved w1))).
Proof.
  intros Hnext Hmk. split; intros Hkind dims.
  - assert (Hinit : init (set_n_dims args dims) w =
                    (Raise (ValueError (unsupported_message (experiment_type args))),
                     mkWorld root' (saved w1))).
    { rewrite (init_after_versioning (set_n_dims args dims) w w1 d root' Hnext Hmk).
      change (experiment_type (set_n_dims args dims)) with (experiment_type args).
      rewrite Hkind. reflexivity. }
    split; [exact Hinit | apply main_init_raise; exact Hinit].
  - rewrite (init_after_versioning (set_n_dims args dims) w w1 d root' Hnext Hmk).
    change (experiment_type (set_n_dims args dims)) with (experiment_type args).
    rewrite Hkind. reflexivity.
Qed.

(** C4's witness: a Gaussian experiment of dimensionality -3 is
    constructed. *)
Lemma init_validates_kind_only_witness :
  @init (example_extern StandIn.positions_2x8 StandIn.rhat always_ok)
        (set_n_dims (parser_defaults "gaussian" 2 "out") (-3)) empty_world
  = (Ok (mkRunner (set_outdir (set_n_dims (parser_defaults "gaussian" 2 "out") (-3))
                              "out/results_1")
                  (Some target_normal) None),
     mkWorld (Dir [("out", Dir [("results_1", Dir [])])]) []).
Proof.
  apply (proj2 (@init_validates_kind_only
                  (example_extern StandIn.positions_2x8 StandIn.rhat always_ok)
                  (parser_defaults "gaussian" 2 "out") empty_world
                  (mkWorld (Dir [("out", Dir [])]) []) "out/results_1"
                  (Dir [("out", Dir [("results_1", Dir [])])])
                  eq_refl eq_refl)).
  reflexivity.
Defined.

(** C4 as stated fails: dimensionality 0 is accepted. *)
Lemma zero_dimensions_accepted :
  ~ @construction_validates
      (example_extern StandIn.positions_2x8 StandIn.rhat always_ok)
      (parser_defaults "gaussian" 0 "out") empty_world.
Proof.
  unfold construction_validates, fails. intros H.
  destruct H as [e He]; [right; simpl; lia|].
  vm_compute in He. discriminate.
Qed.

(** C5 (as amended).  Once the output directory has been created, the
    constructor binds the Gaussian density for [gaussian], the dual-moon
    density for [dualmoon] and the Rosenbrock density for [rosenbrock];
    for every other string, [dual-moon] included, it raises the
    [ValueError] that names the unsupported kind. *)
Theorem target_resolution {E : Extern} (args : params) (w w1 : world)
        (d : string) (root' : node) :
  get_next_available_outdir (outdir args) "results" w = (Ok d, w1) ->
  makedirs (fs w1) d = Ok root' ->
  let resolved t :=
    init args w = (Ok (mkRunner (set_outdir args d) (Some t) None),
                   mkWorld root' (saved w1)) in
  (experiment_type args = "gaussian" -> resolved target_normal)
  /\ (experiment_type args = "dualmoon" -> resolved target_dual_moon)
  /\ (experiment_type args = "rosenbrock" -> resolved target_rosenbrock)
  /\ (~ In (experiment_type args) ["gaussian"; "dualmoon"; "rosenbrock"] ->
      init args w =
        (Raise (ValueError (unsupported_message (experiment_type args))),
         mkWorld root' (saved w1))).
Proof.
  intros Hnext Hmk resolved. unfold resolved.
  rewrite (init_after_versioning args w w1 d root' Hnext Hmk).
  repeat split.
  - intros ->. reflexivity.
  - intros ->. reflexivity.
  - intros ->. reflexivity.
  - intros Hout.
    destruct (py_in (experiment_type args) SUPPORTED_EXPERIMENTS) eqn:Hin;
      [|reflexivity].
    exfalso. apply Hout. apply py_in_supported in Hin. simpl. intuition.
Qed.

(** C5's witness: [dualmoon] resolves to the dual-moon density. *)
Lemma target_resolution_witness :
  @init (example_extern StandIn.positions_2x8 StandIn.rhat always_ok)
        (parser_defaults "dualmoon" 2 "out") world_with_versions
  = (Ok (mkRunner (set_outdir (parser_defaults "dualmoon" 2 "out") "out/results_4")
                  (Some target_dual_moon) None),
     mkWorld (Dir [("out", Dir [("results_1", Dir []);
                                ("notes.txt", File);
                                ("results_3", Dir []);
                                ("results_4", Dir [])])]) []).
Proof.
  apply (proj1 (proj2 (@target_resolution
                  (example_extern StandIn.positions_2x8 StandIn.rhat always_ok)
                  (parser_defaults "dualmoon" 2 "out") world_with_versions
                  world_with_versions "out/results_4"
                  (Dir [("out", Dir [("results_1", Dir []);
                                     ("notes.txt", File);
                                     ("results_3", Dir []);
                                     ("results_4", Dir [])])])
                  eq_refl eq_refl))).
  reflexivity.
Defined.

(** C5 as stated fails: the name [dual-moon] of the enumeration is
    rejected. *)
Lemma dual_moon_with_hyphen_rejected :
  ~ @registry_matches_spec_enumeration
      (example_extern StandIn.positions_2x8 StandIn.rhat always_ok)
      (parser_defaults "dual-moon" 2 "out") empty_world.
Proof.
  unfold registry_matches_spec_enumeration. intros [H _].
  destruct H as [r [t [Hr _]]].
  - simpl. right. left. reflexivity.
  - vm_compute in Hr. discriminate.
Qed.

(** ** Reproducibility of what the sampler receives *)






Lemma os_makedirs_saved (p : string) (w w' : world) (x : result unit) :
  os_makedirs p w = (x, w') -> saved w' = saved w.
Proof.
  unfold os_makedirs. destruct (makedirs (fs w) p); intros H;
    injection H as _ <-; reflexivity.
Qed.

Lemma get_next_available_outdir_saved (base prefix : string) (w w' : world)
      (x : result string) :
  get_next_available_outdir base prefix w = (x, w') -> saved w' = saved w.
Proof.
  unfold get_next_available_outdir, bind, os_path_exists, os_listdir,
    isdir_filter, ret. cbn [fst snd].
  destruct (path_exists (fs w) base).
  - destruct (listdir (fs w) base); intros H; injection H as _ <-; reflexivity.
  - destruct (os_makedirs base w) as [[u|e] w1] eqn:Hmk;
      apply os_makedirs_saved in Hmk.
    + destruct (listdir (fs w1) base); intros H; injection H as _ <-; exact Hmk.
    + intros H. injection H as _ <-. exact Hmk.
Qed.

Lemma init_saved {E : Extern} (args : params) (w w' : world) (x : result runner) :
  init args w = (x, w') -> saved w' = saved w.
Proof.
  unfold init, bind.
  destruct (get_next_available_outdir (outdir args) "results" w)
    as [[d|e] w1] eqn:Hnext; apply get_next_available_outdir_saved in Hnext.
  - destruct (os_makedirs d w1) as [[u|e] w2] eqn:Hmk;
      apply os_makedirs_saved in Hmk.
    + destruct (negb _); unfold raise, ret; intros H; injection H as _ <-;
        congruence.
    + intros H. injection H as _ <-. congruence.
  - intros H. injection H as _ <-. exact Hnext.
Qed.

(** C9 (as amended).  In a run whose sampler, flow-model sample and R-hat
    library calls succeed, the six artifacts are rendered in the order of
    [render_steps]; the first step that fails, in drawing its figure or in
    saving it, ends [main] with its exception: the artifacts written
    before it stay, and neither it nor any later artifact is produced.
    [main] returns normally only when all six were written. *)
Theorem main_stops_at_first_failed_artifact {E : Extern} (args : params)
        (w w1 : world) (r : runner) (call : sampler_call prng_key)
        (res : resources nf_model) (samples : list (list float))
        (rows : list (list float)) (values : list float) :
  init args w = (Ok r, w1) ->
  sampler_request r = Ok call ->
  flowmc_sample call = Ok res ->
  model_sample (model res) nf_sample_key nf_sample_count = Ok samples ->
  rhat_windows (positions_production res) (n_dims (r_params r)) = Ok rows ->
  az_rhat_dataset "rank" (positions_production res) = Ok values ->
  let steps := render_steps r res samples rows values in
  main args w =
    (steps_outcome savefig_ok steps,
     mkWorld (fs w1) (saved w ++ rendered_files savefig_ok steps)).
Proof.
  intros Hinit Hreq Hsample Hmodel Hrows Hvalues steps.
  rewrite <- (init_saved _ _ _ _ Hinit).
  unfold main, bind. rewrite Hinit.
  unfold run_experiment, bind, lift. rewrite Hreq, Hsample. unfold ret.
  unfold plot_diagnostics, print_data, plot_corner, plot_loss_curve,
    plot_rhat_diagnostics, compute_rhat, rhat_s, rhat_values, get_resources,
    bind, lift, ret.
  cbn [sampler r_params rbind].
  rewrite Hmodel, Hrows, Hvalues.
  subst steps. unfold render_steps, plt_savefig.
  change (draw_chains_corner
            (mkRunner (r_params r) (target_fn r) (Some res)) res)
    with (draw_chains_corner r res).
  change (artifact (mkRunner (r_params r) (target_fn r) (Some res)))
    with (artifact r).
  cbn [rendered_files steps_outcome fs saved].
  clear Hinit. destruct w1 as [root1 saved1]. cbn [fs saved].
  repeat (match goal with
          | |- context [match ?d with Ok _ => _ | Raise _ => _ end] =>
              match type of d with
              | result unit => destruct d as [[]|?]
              end
          | |- context [savefig_ok ?f] => destruct (savefig_ok f)
          end; cbn [fs saved]);
    rewrite <- ?app_assoc, ?app_nil_r; reflexivity.
Qed.

(** C9's witness: the first artifact cannot be written; the run ends with
    its [OSError] and nothing is saved. *)
Lemma main_stops_at_first_failed_artifact_witness :
  @main (example_extern StandIn.positions_2x8 StandIn.rhat all_but_acceptance_plot)
        (parser_defaults "gaussian" 1 "out") empty_world
  = (Raise (OSError "out/results_1/acceptance_and_logprob.pdf"),
     mkWorld (Dir [("out", Dir [("results_1", Dir [])])]) []).
Proof.
  etransitivity.
  - eapply (@main_stops_at_first_failed_artifact
              (example_extern StandIn.positions_2x8 StandIn.rhat all_but_acceptance_plot)
              (parser_defaults "gaussian" 1 "out") empty_world);
      reflexivity.
  - reflexivity.
Defined.

(** C9 as stated fails: when only the first artifact cannot be written, the
    five artifacts after it are not produced either. *)
Lemma run_stops_after_failed_artifact :
  ~ @run_continues_after_failed_artifact
      (example_extern StandIn.positions_2x8 StandIn.rhat all_but_acceptance_plot)
      (parser_defaults "gaussian" 1 "out") empty_world "out/results_1".
Proof.
  unfold run_continues_after_failed_artifact. intros H.
  specialize (H "acceptance_and_logprob.pdf" (or_introl eq_refl) eq_refl).
  assert (Hothers : forall f, In f artifact_names ->
                              f <> "acceptance_and_logprob.pdf" ->
                              @savefig_ok
                                (example_extern StandIn.positions_2x8 StandIn.rhat
                                                all_but_acceptance_plot)
                                (os_path_join "out/results_1" f) = true).
  { intros f Hin Hne. simpl in Hin.
    destruct Hin as [<-|[<-|[<-|[<-|[<-|[<-|[]]]]]]];
      try reflexivity; contradiction. }
  specialize (H Hothers "rhat_table.pdf").
  assert (Hin : In "rhat_table.pdf" artifact_names) by (simpl; tauto).
  specialize (H Hin ltac:(discriminate)).
  vm_compute in H. exact H.
Qed.

(* ================================================================== *)
(** * Part III. Further properties of the runner *)
(* ================================================================== *)

(** ** Version numbers in directory names *)

Lemma string_of_uint_digits (d : Decimal.uint) :
  forall_chars is_digit (NilEmpty.string_of_uint d) = true.
Proof. induction d; simpl; auto. Qed.

Lemma int_of_digits_from_uint_acc (d : Decimal.uint) (acc : positive) :
  int_of_digits_from (Npos acc) (NilEmpty.string_of_uint d)
  = Npos (Pos.of_uint_acc d acc).
Proof.
  revert acc; induction d; intros acc;
    cbn [NilEmpty.string_of_uint int_of_digits_from Pos.of_uint_acc];
    try reflexivity; rewrite <- IHd; f_equal;
    match goal with
    | |- context [digit_value ?c] =>
        let v := eval vm_compute in (digit_value c) in
        change (digit_value c) with v
    end; lia.
Qed.

Lemma int_of_digits_of_uint (d : Decimal.uint) :
  int_of_digits (NilEmpty.string_of_uint d) = Pos.of_uint d.
Proof.
  unfold int_of_digits. induction d; simpl; try reflexivity; try exact IHd;
    rewrite <- int_of_digits_from_uint_acc; reflexivity.
Qed.

Lemma str_of_N_digits (n : N) : forall_chars is_digit (str_of_N n) = true.
Proof. apply string_of_uint_digits. Qed.

Lemma str_of_N_not_empty (n : N) : str_of_N n <> "".
Proof.
  unfold str_of_N. destruct n as [|p]; simpl; [discriminate|].
  pose proof (DecimalPos.Unsigned.to_uint_nonnil p) as H.
  destruct (Pos.to_uint p); simpl; try discriminate. contradiction.
Qed.

(** [int(str(n)) == n] *)
Lemma int_of_str_of_N (n : N) : int_of_digits (str_of_N n) = n.
Proof.
  unfold str_of_N. rewrite int_of_digits_of_uint.
  apply DecimalN.Unsigned.of_to.
Qed.

Lemma version_name_matches (prefix : string) (n : N) :
  re_match_group1 prefix (version_name prefix n) = Some (str_of_N n).
Proof.
  apply re_match_group1_spec. exists "". unfold version_name.
  rewrite append_empty_r. repeat split.
  - apply str_of_N_not_empty.
  - apply str_of_N_digits.
Qed.

(** X1.  For a prefix without regular-expression operators, the name
    written for version [n] is matched by the pattern and read back as
    [n]; leading zeros in a name do not change the number read. *)
Theorem version_name_round_trip (prefix : string) (n : N) :
  literal_prefix prefix = true ->
  matched_numbers prefix [version_name prefix n] = [n]
  /\ matched_numbers prefix [(prefix ++ "_0" ++ str_of_N n)%string] = [n].
Proof.
  intros _. split.
  - unfold matched_numbers. cbn [flat_map].
    rewrite version_name_matches, int_of_str_of_N. reflexivity.
  - assert (Hm : re_match_group1 prefix (prefix ++ "_0" ++ str_of_N n)
                 = Some ("0" ++ str_of_N n)%string).
    { apply re_match_group1_spec. exists "". rewrite append_empty_r.
      repeat split.
      - discriminate.
      - simpl. apply str_of_N_digits. }
    unfold matched_numbers. cbn [flat_map]. rewrite Hm.
    change (int_of_digits ("0" ++ str_of_N n)) with (int_of_digits (str_of_N n)).
    rewrite int_of_str_of_N. reflexivity.
Qed.

(** Witness: version 12 of [results]. *)
Lemma version_name_round_trip_witness :
  matched_numbers "results" ["results_12"] = [12%N]
  /\ matched_numbers "results" ["results_012"] = [12%N].
Proof.
  exact (version_name_round_trip "results" 12 eq_refl).
Defined.

Lemma max_default0_ge (l : list N) (n : N) : In n l -> (n <= max_default0 l)%N.
Proof.
  induction l as [|a l IH]; simpl; [contradiction|].
  intros [-> | H]; [lia | specialize (IH H); lia].
Qed.


Lemma matched_numbers_in (prefix name ds : string) (names : list string) :
  In name names -> re_match_group1 prefix name = Some ds ->
  In (int_of_digits ds) (matched_numbers prefix names).
Proof.
  intros Hin Hm. unfold matched_numbers. apply in_flat_map.
  exists name. split; [exact Hin|]. rewrite Hm. left. reflexivity.
Qed.


Lemma lookup_entry_some_in (es : list (string * node)) (name : string) (n : node) :
  lookup_entry name es = Some n -> In (name, n) es.
Proof.
  induction es as [|[k m] tl IH]; simpl; [discriminate|].
  destruct (String.eqb k name) eqn:Hk.
  - apply String.eqb_eq in Hk. intros H. injection H as ->. subst k. left. reflexivity.
  - intros H. right. apply IH. exact H.
Qed.


Lemma version_name_ok (prefix : string) (n : N) :
  no_slash prefix = true -> entry_name_ok (version_name prefix n) = true.
Proof.
  intros Hp. unfold version_name.
  apply versioned_name_ok; [exact Hp | | discriminate].
  unfold no_slash. simpl.
  pose proof (str_of_N_digits n) as Hd.
  induction (str_of_N n) as [|c s IH]; simpl in *; [reflexivity|].
  apply andb_prop in Hd as [Hc Hs]. rewrite (IH Hs), andb_true_r.
  apply negb_true_iff. apply Ascii.eqb_neq. intros ->. discriminate.
Qed.

(** The scan of a base that is a directory. *)
Lemma get_next_existing_base (w : world) (base prefix : string)
      (es : list (string * node)) :
  resolve (fs w) base = Some (Dir es) -> entries_ok es ->
  get_next_available_outdir base prefix w =
    (Ok (os_path_join base (version_name prefix (next_version prefix es))), w).
Proof.
  intros Hres Hok.
  unfold get_next_available_outdir, bind, os_path_exists, os_listdir,
    isdir_filter, ret, path_exists, listdir.
  rewrite Hres. cbn beta iota. rewrite Hres.
  rewrite (isdir_filter_subdirectories _ _ _ Hres Hok).
  reflexivity.
Qed.

(** X2.  The path returned for a base directory never names one of its
    subdirectories. *)
Theorem next_outdir_is_no_directory (w : world) (base prefix : string)
        (es : list (string * node)) :
  plain_path base = true ->
  literal_prefix prefix = true ->
  no_slash prefix = true ->
  resolve (fs w) base = Some (Dir es) ->
  entries_ok es ->
  exists p,
    get_next_available_outdir base prefix w = (Ok p, w)
    /\ path_isdir (fs w) p = false.
Proof.
  intros _ _ Hns Hres Hok.
  eexists. split; [apply (get_next_existing_base _ _ _ _ Hres Hok)|].
  unfold path_isdir.
  rewrite (resolve_join _ _ _ _ Hres (version_name_ok prefix _ Hns)).
  destruct (lookup_entry (version_name prefix (next_version prefix es)) es)
    as [[|sub]|] eqn:Hl; try reflexivity.
  exfalso. apply lookup_entry_some_in in Hl.
  assert (Hsub : In (version_name prefix (next_version prefix es)) (subdirectories es)).
  { unfold subdirectories.
    change (version_name prefix (next_version prefix es))
      with (fst (version_name prefix (next_version prefix es), Dir sub)).
    apply in_map. apply filter_In. split; [exact Hl | reflexivity]. }
  pose proof (matched_numbers_in _ _ _ _ Hsub (version_name_matches prefix _)) as Hin.
  rewrite int_of_str_of_N in Hin. apply max_default0_ge in Hin.
  unfold next_version, version_numbers in Hin. lia.
Qed.

(** ** Creating the versioned directory *)

(** A directory that [makedirs] created did not exist before and is empty
    afterwards. *)
Lemma makedirs_at_creates (p : string) (cs : list string) :
  forall n n', makedirs_at p n cs = Ok n' ->
               resolve_at n cs = None /\ resolve_at n' cs = Some (Dir []).
Proof.
  induction cs as [|c cs IH]; intros n n' Hmk; simpl in *.
  - discriminate.
  - destruct n as [|es]; [discriminate|].
    destruct (lookup_entry c es) as [ch|] eqn:Hl.
    + destruct (makedirs_at p ch cs) as [ch'|e] eqn:Hch; simpl in Hmk; [|discriminate].
      injection Hmk as <-. rewrite lookup_set_entry.
      apply (IH ch ch' Hch).
    + injection Hmk as <-. rewrite (lookup_app_fresh _ _ _ Hl).
      split; [reflexivity | apply resolve_fresh_dirs].
Qed.

Lemma makedirs_creates (root root' : node) (p : string) :
  makedirs root p = Ok root' ->
  path_exists root p = false /\ resolve root' p = Some (Dir []).
Proof.
  unfold makedirs, path_exists, resolve.
  destruct (String.eqb p ""); [discriminate|].
  intros H. destruct (makedirs_at_creates _ _ _ _ H) as [H1 H2].
  rewrite H1. split; [reflexivity | exact H2].
Qed.

(** Creating a child of a directory adds an empty entry at the end of its
    listing; it is refused when the name is taken. *)
Lemma makedirs_at_child (p name : string) (cs : list string) :
  forall n es,
    resolve_at n cs = Some (Dir es) ->
    match lookup_entry name es with
    | Some _ => makedirs_at p n (cs ++ [name]) = Raise (FileExistsError p)
    | None =>
        exists n', makedirs_at p n (cs ++ [name]) = Ok n'
                   /\ resolve_at n' cs = Some (Dir (es ++ [(name, Dir [])]))
    end.
Proof.
  induction cs as [|c cs IH]; intros n es Hres; simpl in *.
  - injection Hres as ->.
    destruct (lookup_entry name es) as [x|] eqn:Hl.
    + destruct x; reflexivity.
    + eexists. split; reflexivity.
  - destruct n as [|es0]; [discriminate|].
    destruct (lookup_entry c es0) as [ch|] eqn:Hc; [|discriminate].
    specialize (IH ch es Hres).
    destruct (lookup_entry name es) as [x|].
    + rewrite IH. reflexivity.
    + destruct IH as [ch' [Hmk Hch']]. rewrite Hmk. simpl.
      eexists. split; [reflexivity|]. cbn [resolve_at].
      rewrite lookup_set_entry. exact Hch'.
Qed.

Lemma makedirs_child (root : node) (base name : string) (es : list (string * node)) :
  resolve root base = Some (Dir es) -> entry_name_ok name = true ->
  match lookup_entry name es with
  | Some _ =>
      makedirs root (os_path_join base name)
      = Raise (FileExistsError (os_path_join base name))
  | None =>
      exists root', makedirs root (os_path_join base name) = Ok root'
                    /\ resolve root' base = Some (Dir (es ++ [(name, Dir [])]))
  end.
Proof.
  intros Hb Hn. unfold resolve, makedirs in *.
  destruct (String.eqb base "") eqn:Hbe; [discriminate|].
  apply String.eqb_neq in Hbe.
  assert (Hne : name <> "").
  { unfold entry_name_ok in Hn. apply andb_prop in Hn as [Hn _].
    apply negb_true_iff in Hn. apply String.eqb_neq. exact Hn. }
  pose proof (join_not_empty base name Hne) as Hj.
  apply String.eqb_neq in Hj. rewrite Hj.
  rewrite (components_join _ _ Hbe Hn).
  apply (makedirs_at_child _ _ _ _ _ Hb).
Qed.




Lemma makedirs_at_raise (p : string) (cs : list string) :
  forall n e, makedirs_at p n cs = Raise e ->
              e = FileExistsError p \/ e = NotADirectoryError p.
Proof.
  induction cs as [|c cs IH]; intros n e H; simpl in H.
  - injection H as <-. left. reflexivity.
  - destruct n as [|es]; [injection H as <-; right; reflexivity|].
    destruct (lookup_entry c es) as [ch|]; [|discriminate].
    destruct (makedirs_at p ch cs) as [ch'|e'] eqn:Hch; simpl in H; [discriminate|].
    injection H as <-. apply (IH _ _ Hch).
Qed.

Lemma makedirs_raise (root : node) (p : string) (e : exn) :
  makedirs root p = Raise e ->
  e = FileExistsError p \/ e = NotADirectoryError p \/ e = FileNotFoundError p.
Proof.
  unfold makedirs. destruct (String.eqb p "").
  - intros H. injection H as <-. right. right. reflexivity.
  - intros H. apply makedirs_at_raise in H. tauto.
Qed.

(** What a successful scan leaves behind: the base is a directory, and the
    path returned is the next version among its entries. *)
Lemma get_next_ok_inv (w wa : world) (base prefix d : string) :
  (forall es, resolve (fs w) base = Some (Dir es) -> entries_ok es) ->
  get_next_available_outdir base prefix w = (Ok d, wa) ->
  exists es,
    resolve (fs wa) base = Some (Dir es)
    /\ entries_ok es
    /\ d = os_path_join base (version_name prefix (next_version prefix es))
    /\ saved wa = saved w.
Proof.
  intros Hok H.
  destruct (resolve (fs w) base) as [[|es]|] eqn:Hres.
  - unfold get_next_available_outdir, bind, os_path_exists, os_listdir,
      path_exists, listdir, ret in H.
    rewrite Hres in H. cbn beta iota in H. rewrite Hres in H. discriminate.
  - rewrite (get_next_existing_base _ _ _ _ Hres (Hok es eq_refl)) in H.
    injection H as <- <-. exists es. repeat split; auto.
    + apply (Hok es eq_refl).
    + apply (Hok es eq_refl).
  - unfold get_next_available_outdir, bind, os_path_exists, os_makedirs,
      os_listdir, isdir_filter, path_exists, listdir, ret in H.
    rewrite Hres in H. cbn beta iota in H.
    destruct (makedirs (fs w) base) as [root'|e] eqn:Hmk; [|discriminate].
    destruct (makedirs_creates _ _ _ Hmk) as [_ Hnew].
    cbn [fs] in H. rewrite Hnew in H. cbn in H.
    injection H as <- <-. exists []. cbn [fs saved].
    repeat split; auto; constructor.
Qed.

(** The scan itself raises no [ValueError]. *)
Lemma get_next_raise (w wa : world) (base prefix : string) (e : exn) :
  get_next_available_outdir base prefix w = (Raise e, wa) ->
  wa = w /\ (e = FileExistsError base \/ e = NotADirectoryError base
             \/ e = FileNotFoundError base).
Proof.
  unfold get_next_available_outdir, bind, os_path_exists, os_makedirs,
    os_listdir, isdir_filter, path_exists, listdir, ret.
  destruct (resolve (fs w) base) as [[|es]|] eqn:Hres; cbn beta iota.
  - rewrite Hres. intros H. injection H as <- <-. tauto.
  - rewrite Hres. discriminate.
  - destruct (makedirs (fs w) base) as [root'|e'] eqn:Hmk.
    + destruct (makedirs_creates _ _ _ Hmk) as [_ Hnew].
      cbn [fs]. rewrite Hnew. discriminate.
    + intros H. injection H as <- <-. split; [reflexivity|].
      apply (makedirs_raise _ _ _ Hmk).
Qed.

Lemma resolve_under_missing (root : node) (base name : string) :
  base <> "" -> resolve root base = None -> entry_name_ok name = true ->
  resolve root (os_path_join base name) = None.
Proof.
  intros Hbe Hres Hn. unfold resolve in *.
  apply String.eqb_neq in Hbe. rewrite Hbe in Hres. apply String.eqb_neq in Hbe.
  destruct (String.eqb (os_path_join base name) ""); [reflexivity|].
  rewrite (components_join _ _ Hbe Hn), resolve_at_app, Hres. reflexivity.
Qed.

(** A scan that had to create the base returns its first version. *)
Lemma get_next_fresh_base (w wa : world) (base prefix d : string) :
  resolve (fs w) base = None ->
  get_next_available_outdir base prefix w = (Ok d, wa) ->
  base <> "" /\ d = os_path_join base (version_name prefix 1).
Proof.
  intros Hres H.
  unfold get_next_available_outdir, bind, os_path_exists, os_makedirs,
    os_listdir, isdir_filter, path_exists, listdir, ret in H.
  rewrite Hres in H. cbn beta iota in H.
  destruct (makedirs (fs w) base) as [root'|e] eqn:Hmk; [|discriminate].
  destruct (makedirs_creates _ _ _ Hmk) as [_ Hnew].
  cbn [fs] in H. rewrite Hnew in H. cbn in H. injection H as <- _.
  split; [|reflexivity].
  intros ->. unfold makedirs in Hmk. simpl in Hmk. discriminate.
Qed.

Lemma init_unfold {E : Extern} (args : params) (w : world) :
  init args w =
    match get_next_available_outdir (outdir args) "results" w with
    | (Ok d, wa) =>
        match makedirs (fs wa) d with
        | Ok root' =>
            (if py_in (experiment_type args) SUPPORTED_EXPERIMENTS
             then Ok (mkRunner (set_outdir args d)
                               (select_target (experiment_type args)) None)
             else Raise (ValueError (unsupported_message (experiment_type args))),
             mkWorld root' (saved wa))
        | Raise e => (Raise e, wa)
        end
    | (Raise e, wa) => (Raise e, wa)
    end.
Proof.
  unfold init, bind.
  destruct (get_next_available_outdir (outdir args) "results" w) as [[d|e] wa];
    [|reflexivity].
  unfold os_makedirs. destruct (makedirs (fs wa) d); [|reflexivity].
  cbn -[py_in SUPPORTED_EXPERIMENTS].
  destruct (py_in (experiment_type args) SUPPORTED_EXPERIMENTS); reflexivity.
Qed.

(** ** What a construction leaves behind *)

(** X3.  A runner that was constructed has a density bound, no sampler yet,
    the given parameters with only [outdir] replaced, and its output
    directory is a directory that did not exist before the call and is
    empty after it. *)
Theorem constructed_runner_invariant {E : Extern} (args : params) (w w' : world)
        (r : runner) :
  init args w = (Ok r, w') ->
  (exists t, get_target_fn r = Ok t)
  /\ sampler r = None
  /\ r_params r = set_outdir args (outdir (r_params r))
  /\ path_exists (fs w) (outdir (r_params r)) = false
  /\ resolve (fs w') (outdir (r_params r)) = Some (Dir [])
  /\ saved w' = saved w.
Proof.
  rewrite init_unfold.
  destruct (get_next_available_outdir (outdir args) "results" w)
    as [[d|e] wa] eqn:Hnext; [|discriminate].
  destruct (makedirs (fs wa) d) as [root'|e] eqn:Hmk; [|discriminate].
  destruct (py_in (experiment_type args) SUPPORTED_EXPERIMENTS) eqn:Hkind;
    [|discriminate].
  intros H. injection H as <- <-. cbn [r_params sampler outdir set_outdir fs saved].
  destruct (makedirs_creates _ _ _ Hmk) as [Habs Hnew].
  split; [|split; [reflexivity | split; [reflexivity | split; [|split]]]].
  - unfold get_target_fn. cbn [target_fn].
    destruct (select_target_supported _ Hkind) as [t ->]. exists t. reflexivity.
  - destruct (resolve (fs w) (outdir args)) as [n|] eqn:Hres.
    + assert (Hwa : wa = w).
      { unfold get_next_available_outdir, bind, os_path_exists, os_listdir,
          isdir_filter, path_exists, ret in Hnext.
        rewrite Hres in Hnext. cbn beta iota in Hnext.
        destruct (listdir (fs w) (outdir args)); [|discriminate].
        injection Hnext as _ <-. reflexivity. }
      subst wa. exact Habs.
    + destruct (get_next_fresh_base _ _ _ _ _ Hres Hnext) as [Hbe ->].
      unfold path_exists.
      rewrite (resolve_under_missing _ _ _ Hbe Hres
                 (version_name_ok "results" 1 eq_refl)).
      reflexivity.
  - exact Hnew.
  - apply (get_next_available_outdir_saved _ _ _ _ _ Hnext).
Qed.

(** Witness: a Gaussian run on an empty file system. *)
Lemma constructed_runner_invariant_witness :
  resolve (Dir [("out", Dir [("results_1", Dir [])])]) "out/results_1"
  = Some (Dir []).
Proof.
  exact (proj1 (proj2 (proj2 (proj2 (proj2
           (@constructed_runner_invariant
              (example_extern StandIn.positions_2x8 StandIn.rhat always_ok)
              (parser_defaults "gaussian" 2 "out") empty_world _ _ eq_refl)))))).
Defined.



(** X5.  In a directory whose entries are named in ASCII, a regular file
    that carries the name of the next version is not seen by the scan, and
    the construction fails on it with [FileExistsError], leaving the file
    system as it was. *)
Theorem file_named_like_next_version {E : Extern} (args : params) (w : world)
        (es : list (string * node)) :
  plain_path (outdir args) = true ->
  resolve (fs w) (outdir args) = Some (Dir es) ->
  entries_ok es ->
  ascii_names es ->
  In (version_name "results" (next_version "results" es), File) es ->
  init args w =
    (Raise (FileExistsError
              (os_path_join (outdir args)
                 (version_name "results" (next_version "results" es)))),
     w).
Proof.
  intros _ Hres Hes _ Hin. rewrite init_unfold.
  rewrite (get_next_existing_base _ _ _ _ Hres Hes).
  pose proof (makedirs_child _ _ _ _ Hres (version_name_ok "results"
                (next_version "results" es) eq_refl)) as Hchild.
  rewrite (lookup_entry_in _ _ _ (proj1 Hes) Hin) in Hchild.
  rewrite Hchild. reflexivity.
Qed.

(** Witness: [out] holds the directory [results_1] and the regular file
    [results_2]. *)
Lemma file_named_like_next_version_witness :
  @init (example_extern StandIn.positions_2x8 StandIn.rhat always_ok)
        (parser_defaults "gaussian" 2 "out")
        (mkWorld (Dir [("out", Dir [("results_1", Dir []); ("results_2", File)])]) [])
  = (Raise (FileExistsError "out/results_2"),
     mkWorld (Dir [("out", Dir [("results_1", Dir []); ("results_2", File)])]) []).
Proof.
  refine (@file_named_like_next_version
            (example_extern StandIn.positions_2x8 StandIn.rhat always_ok)
            (parser_defaults "gaussian" 2 "out")
            (mkWorld (Dir [("out", Dir [("results_1", Dir []); ("results_2", File)])]) [])
            [("results_1", Dir []); ("results_2", File)]
            eq_refl eq_refl _ _ _).
  - split; [repeat constructor; simpl; intuition discriminate | repeat constructor].
  - repeat constructor.
  - right. left. reflexivity.
Defined.



(** X7.  A construction that is rejected for its kind has already created
    the versioned directory: it raises the [ValueError] of the membership
    test only after a directory that did not exist has been made, and that
    directory stays, empty. *)
Theorem rejected_kind_leaves_directory {E : Extern} (args : params) (w w' : world)
        (msg : string) :
  init args w = (Raise (ValueError msg), w') ->
  msg = unsupported_message (experiment_type args)
  /\ py_in (experiment_type args) SUPPORTED_EXPERIMENTS = false
  /\ exists d wa,
       get_next_available_outdir (outdir args) "results" w = (Ok d, wa)
       /\ path_exists (fs wa) d = false
       /\ resolve (fs w') d = Some (Dir [])
       /\ saved w' = saved w.
Proof.
  intros H. pose proof H as Hsaved. apply init_saved in Hsaved.
  rewrite init_unfold in H.
  destruct (get_next_available_outdir (outdir args) "results" w)
    as [[d|e] wa] eqn:Hnext.
  - destruct (makedirs (fs wa) d) as [root'|e] eqn:Hmk.
    + destruct (py_in (experiment_type args) SUPPORTED_EXPERIMENTS); [discriminate|].
      injection H as <- <-.
      destruct (makedirs_creates _ _ _ Hmk) as [Habs Hnew].
      split; [reflexivity|]. split; [reflexivity|].
      exists d, wa. repeat split; assumption.
    + injection H as -> _. apply makedirs_raise in Hmk.
      destruct Hmk as [Hm | [Hm | Hm]]; discriminate.
  - injection H as -> _. apply get_next_raise in Hnext.
    destruct Hnext as [_ [Hm | [Hm | Hm]]]; discriminate.
Qed.

(** Witness: the kind [dual-moon] on an empty file system. *)
Lemma rejected_kind_leaves_directory_witness :
  resolve (Dir [("out", Dir [("results_1", Dir [])])]) "out/results_1"
  = Some (Dir []).
Proof.
  destruct (@rejected_kind_leaves_directory
              (example_extern StandIn.positions_2x8 StandIn.rhat always_ok)
              (parser_defaults "dual-moon" 2 "out") empty_world _ _ eq_refl)
    as [_ [_ [d [wa [Hnext [_ [Hnew _]]]]]]].
  vm_compute in Hnext. injection Hnext as <- _. exact Hnew.
Defined.

(** ** The run and the methods that read the sampler *)

(** Witness for [next_outdir_is_no_directory]. *)
Lemma next_outdir_is_no_directory_witness :
  exists p,
    get_next_available_outdir "out" "results" world_with_versions
    = (Ok p, world_with_versions)
    /\ path_isdir (fs world_with_versions) p = false.
Proof.
  refine (next_outdir_is_no_directory world_with_versions "out" "results"
            [("results_1", Dir []); ("notes.txt", File); ("results_3", Dir [])]
            eq_refl eq_refl eq_refl eq_refl _).
  split; [repeat constructor; simpl; intuition discriminate | repeat constructor].
Defined.

(** X8.  A failure of the sampler side (drawing the initial ensemble,
    building the bundle or sampling) ends [main] with that exception: no
    artifact is written, and only the new output directory remains. *)
Theorem sampler_failure_is_fatal {E : Extern} (args : params) (w w1 : world)
        (r : runner) (e : exn) :
  init args w = (Ok r, w1) ->
  (sampler_request r = Raise e
   \/ exists call, sampler_request r = Ok call /\ flowmc_sample call = Raise e) ->
  main args w = (Raise e, w1) /\ saved w1 = saved w.
Proof.
  intros Hinit Hfail. split; [|apply (init_saved _ _ _ _ Hinit)].
  unfold main, bind. rewrite Hinit. unfold run_experiment, bind, lift.
  destruct Hfail as [Hreq | [call [Hreq Hs]]]; rewrite Hreq; [reflexivity|].
  rewrite Hs. reflexivity.
Qed.

(** X9.  Before [run_experiment] has stored a sampler, every
    post-processing method raises [AttributeError] and writes nothing. *)
Theorem postprocessing_needs_sampler {E : Extern} (r : runner) (w : world)
        (method : string) :
  sampler r = None ->
  let missing {A} : result A * world := (Raise (AttributeError "sampler"), w) in
  plot_diagnostics r w = missing
  /\ print_data r w = missing
  /\ plot_corner r w = missing
  /\ plot_loss_curve r w = missing
  /\ plot_rhat_diagnostics r w = missing
  /\ compute_rhat method r w = missing.
Proof.
  intros Hs missing. unfold missing.
  unfold plot_diagnostics, print_data, plot_corner, plot_loss_curve,
    plot_rhat_diagnostics, compute_rhat, rhat_s, rhat_values, get_resources,
    bind, lift.
  rewrite Hs. repeat split.
Qed.

(** X10.  The option [--mala-step-size] has no effect: [main] does the same
    with every value of it. *)
Theorem mala_step_size_has_no_effect {E : Extern} (args : params) (s : float)
        (w : world) :
  main (set_mala_step_size args s) w = main args w.
Proof.
  unfold main, bind. rewrite !init_unfold.
  change (outdir (set_mala_step_size args s)) with (outdir args).
  change (experiment_type (set_mala_step_size args s)) with (experiment_type args).
  destruct (get_next_available_outdir (outdir args) "results" w) as [[d|e] wa];
    [|reflexivity].
  destruct (makedirs (fs wa) d); [|reflexivity].
  destruct (py_in (experiment_type args) SUPPORTED_EXPERIMENTS); [|reflexivity].
  unfold run_experiment, bind, lift.
  change (sampler_request
            (mkRunner (set_outdir (set_mala_step_size args s) d)
                      (select_target (experiment_type args)) None))
    with (sampler_request
            (mkRunner (set_outdir args d)
                      (select_target (experiment_type args)) None)).
  destruct (sampler_request _) as [call|e]; [|reflexivity].
  destruct (flowmc_sample call) as [res|e]; reflexivity.
Qed.

(** Witness: the sampler raises in a Gaussian run. *)
Lemma sampler_failure_is_fatal_witness :
  @main extern_with_failing_sampler (parser_defaults "gaussian" 2 "out") empty_world
  = (Raise (LibraryError "RuntimeError"),
     mkWorld (Dir [("out", Dir [("results_1", Dir [])])]) []).
Proof.
  refine (proj1 (@sampler_failure_is_fatal extern_with_failing_sampler
                   (parser_defaults "gaussian" 2 "out") empty_world _ _ _
                   eq_refl _)).
  right. eexists. split; reflexivity.
Defined.

(** Witness: a runner fresh from the constructor. *)
Lemma postprocessing_needs_sampler_witness :
  @plot_corner (example_extern StandIn.positions_2x8 StandIn.rhat always_ok)
     (mkRunner (parser_defaults "gaussian" 2 "out/results_1") (Some target_normal) None)
     empty_world
  = (Raise (AttributeError "sampler"), empty_world).
Proof.
  exact (proj1 (proj2 (proj2
           (@postprocessing_needs_sampler
              (example_extern StandIn.positions_2x8 StandIn.rhat always_ok)
              (mkRunner (parser_defaults "gaussian" 2 "out/results_1")
                        (Some target_normal) None)
              empty_world "rank" eq_refl)))).
Defined.

(** ** More on the window trace *)

Lemma rmap_ext_in {A B} (f g : A -> result B) (l : list A) :
  (forall x, In x l -> f x = g x) -> rmap f l = rmap g l.
Proof.
  induction l as [|a tl IH]; intros H; simpl; [reflexivity|].
  rewrite (H a (or_introl eq_refl)).
  rewrite IH by (intros x Hx; apply H; right; exact Hx). reflexivity.
Qed.

Lemma firstn_firstn_le {A} (k K : nat) (l : list A) :
  (k <= K)%nat -> firstn k (firstn K l) = firstn k l.
Proof. intros H. rewrite firstn_firstn. rewrite Nat.min_l by exact H. reflexivity. Qed.

(** A window reads only the draws it covers. *)
Lemma window_slice_prefix (a b : ndarray3) (k K j : nat) :
  shape3 a = shape3 b ->
  map (firstn K) (cells3 a) = map (firstn K) (cells3 b) ->
  (k <= K)%nat ->
  window_slice a k j = window_slice b k j.
Proof.
  intros Hshape Hcells Hk. unfold window_slice, n_dim_axis, n_chain_axis, n_draw_axis.
  rewrite Hshape. destruct (j <? snd (shape3 b))%nat; [|reflexivity].
  do 2 f_equal.
  transitivity (map (fun chain => map (fun draw => nth j draw nan) (firstn k chain))
                    (map (firstn K) (cells3 a))).
  - rewrite map_map. apply map_ext. intros chain.
    rewrite (firstn_firstn_le _ _ _ Hk). reflexivity.
  - rewrite Hcells, map_map. apply map_ext. intros chain.
    rewrite (firstn_firstn_le _ _ _ Hk). reflexivity.
Qed.

(** X11.  The window trace never reads the draws after the first
    [7 * floor(total_draws / 7)]: two arrays of the same shape that agree
    on those draws have the same trace, whatever the library computes. *)
Theorem trace_ignores_trailing_draws {E : Extern} (a b : ndarray3) (dims : Z) :
  shape3 a = shape3 b ->
  map (firstn (covered_draws a)) (cells3 a)
  = map (firstn (covered_draws a)) (cells3 b) ->
  rhat_windows a dims = rhat_windows b dims.
Proof.
  intros Hshape Hcells. unfold rhat_windows.
  assert (Hn : n_draw_axis a = n_draw_axis b) by (unfold n_draw_axis; rewrite Hshape; reflexivity).
  rewrite <- Hn.
  apply rmap_ext_in. intros j _. apply rmap_ext_in. intros i Hi.
  rewrite (window_slice_prefix a b _ (covered_draws a) j Hshape Hcells);
    [reflexivity|].
  unfold covered_draws. apply in_seq in Hi.
  apply Nat.mul_le_mono_r. lia.
Qed.

(** Witness: two arrays of 8 draws that differ in the eighth draw. *)
Lemma trace_ignores_trailing_draws_witness :
  @rhat_windows (example_extern StandIn.positions_2x8 StandIn.rhat always_ok)
                StandIn.positions_2x8 1
  = @rhat_windows (example_extern StandIn.positions_2x8 StandIn.rhat always_ok)
                  positions_2x8_other_tail 1.
Proof.
  apply (@trace_ignores_trailing_draws
           (example_extern StandIn.positions_2x8 StandIn.rhat always_ok)
           StandIn.positions_2x8 positions_2x8_other_tail 1);
    reflexivity.
Defined.

(** X12.  In a well-shaped array, window [w] of the trace holds exactly
    [w * floor(total_draws / 7)] draws of every chain, and it is the
    beginning of every later window. *)
Theorem windows_grow (chains : ndarray3) (j w w' : nat) :
  well_shaped chains ->
  (j < n_dim_axis chains)%nat ->
  (1 <= w <= w')%nat -> (w' <= n_step_group)%nat ->
  let g := (n_draw_axis chains / n_step_group)%nat in
  exists a a',
    window_slice chains (w * g) j = Ok a
    /\ window_slice chains (w' * g) j = Ok a'
    /\ shape2 a = (n_chain_axis chains, (w * g)%nat)
    /\ Forall (fun row => List.length row = (w * g)%nat) (cells2 a)
    /\ cells2 a = map (firstn (w * g)) (cells2 a').
Proof.
  intros [_ Hrows] Hj Hw Hw' g. unfold window_slice.
  apply Nat.ltb_lt in Hj. rewrite Hj.
  assert (Hg : (n_step_group * g <= n_draw_axis chains)%nat).
  { unfold g. apply Nat.Div0.mul_div_le. }
  assert (Hwg : (w * g <= n_draw_axis chains)%nat).
  { apply Nat.le_trans with (n_step_group * g)%nat; [|exact Hg].
    apply Nat.mul_le_mono_r. lia. }
  eexists. eexists. split; [reflexivity|]. split; [reflexivity|].
  cbn [shape2 cells2]. split; [|split].
  - rewrite Nat.min_l by exact Hwg. reflexivity.
  - apply Forall_map. rewrite Forall_forall in Hrows |- *.
    intros chain Hin. destruct (Hrows _ Hin) as [Hlen _].
    rewrite length_map, length_firstn, Hlen. apply Nat.min_l. exact Hwg.
  - rewrite map_map. apply map_ext. intros chain.
    rewrite firstn_map. rewrite firstn_firstn_le; [reflexivity|].
    apply Nat.mul_le_mono_r. lia.
Qed.

(** Witness: windows 2 and 5 of 14 draws. *)
Lemma windows_grow_witness :
  exists a a',
    window_slice StandIn.positions_2x14 4 0 = Ok a
    /\ window_slice StandIn.positions_2x14 10 0 = Ok a'
    /\ shape2 a = (2%nat, 4%nat)
    /\ Forall (fun row => List.length row = 4%nat) (cells2 a)
    /\ cells2 a = map (firstn 4) (cells2 a').
Proof.
  refine (windows_grow StandIn.positions_2x14 0 2 5 _ _ _ _).
  - split; [reflexivity|]. repeat constructor.
  - vm_compute. lia.
  - lia.
  - vm_compute. lia.
Defined.

Lemma rmap_app {A B} (f : A -> result B) (l1 l2 : list A) :
  rmap f (l1 ++ l2) =
    rbind (rmap f l1) (fun ys1 =>
    rbind (rmap f l2) (fun ys2 => Ok (ys1 ++ ys2)%list)).
Proof.
  induction l1 as [|a l1 IH]; simpl.
  - destruct (rmap f l2); reflexivity.
  - destruct (f a); simpl; [|reflexivity]. rewrite IH.
    destruct (rmap f l1); simpl; [|reflexivity].
    destruct (rmap f l2); reflexivity.
Qed.

(** X13.  The trace follows the parameter [n_dims], not the array: for
    [n_dims <= 0] it is the empty array of shape [(0,)] and the library is
    not called; when [n_dims] exceeds the last axis of the array and the
    library returns values, it ends in the [IndexError] of the first
    dimension outside the array. *)
Theorem trace_dimension_bounds {E : Extern} (chains : ndarray3) (dims : Z) :
  ((dims <= 0)%Z ->
   rhat_windows chains dims = Ok []
   /\ np_array_shape (@nil (list float)) = [0%nat])
  /\ ((forall a, exists v, az_rhat "rank" a = Ok v) ->
      (n_dim_axis chains < Z.to_nat dims)%nat ->
      rhat_windows chains dims = Raise IndexError).
Proof.
  split.
  - intros Hd. unfold rhat_windows, py_range.
    replace (Z.to_nat dims) with 0%nat by lia. split; reflexivity.
  - intros Hlib Hd. unfold rhat_windows, py_range.
    replace (Z.to_nat dims)
      with (n_dim_axis chains + S (Z.to_nat dims - S (n_dim_axis chains)))%nat by lia.
    rewrite seq_app, rmap_app.
    destruct (rmap_total
                (fun j =>
                   rmap (fun i =>
                           rbind (window_slice chains
                                    ((i + 1) * (n_draw_axis chains / n_step_group)) j)
                                 (az_rhat "rank"))
                        (seq 0 n_step_group))
                (seq 0 (n_dim_axis chains))) as [ys Hys].
    { intros j Hj. apply rmap_total. intros i _.
      apply window_value_total; [exact Hlib|]. apply in_seq in Hj. lia. }
    rewrite Hys. cbn [rbind seq rmap Nat.add].
    unfold window_slice at 1. rewrite Nat.ltb_irrefl. reflexivity.
Qed.

(** Witness: a one-dimensional array read with [n_dims = 2]. *)
Lemma trace_dimension_bounds_witness :
  @rhat_windows (example_extern StandIn.positions_2x8 StandIn.rhat always_ok)
                StandIn.positions_2x8 2 = Raise IndexError.
Proof.
  apply (proj2 (@trace_dimension_bounds
                  (example_extern StandIn.positions_2x8 StandIn.rhat always_ok)
                  StandIn.positions_2x8 2)).
  - intros a. eexists. reflexivity.
  - vm_compute. lia.
Defined.

(** ** The densities *)

Lemma sq_nonneg (a : R) : (0 <= Targets.sq a)%R.
Proof. unfold Targets.sq. nra. Qed.

Lemma sq_zero (a : R) : Targets.sq a = 0%R -> a = 0%R.
Proof. unfold Targets.sq. nra. Qed.

Lemma fsum_nonneg (l : list R) :
  Forall (fun t => 0 <= t)%R l -> (0 <= Targets.fsum l)%R.
Proof.
  induction 1 as [|t l Ht _ IH]; simpl; [lra|]. lra.
Qed.

Lemma fsum_zero (l : list R) :
  Forall (fun t => 0 <= t)%R l ->
  (Targets.fsum l = 0%R <-> Forall (fun t => t = 0%R) l).
Proof.
  induction 1 as [|t l Ht Hl IH]; simpl.
  - split; [constructor | reflexivity].
  - pose proof (fsum_nonneg l Hl) as Hs. split.
    + intros H. constructor; [lra | apply IH; lra].
    + intros H. inversion H as [|? ? H1 H2]; subst.
      apply IH in H2. lra.
Qed.

(** X14.  The Gaussian log-density is never positive, it is 0 at the
    origin in every dimensionality, and it does not change when any of the
    coordinates change sign. *)
Theorem gaussian_maximum (x : list R) :
  exists v,
    call_target target_normal x = Ok v
    /\ (v <= 0)%R
    /\ (Forall (fun c => c = 0%R) x -> v = 0%R)
    /\ (forall y,
          Forall2 (fun a b => b = a \/ b = (- a)%R) x y ->
          call_target target_normal y = Ok v).
Proof.
  eexists. split; [reflexivity|].
  assert (Hnn : Forall (fun t => 0 <= t)%R (map Targets.sq x)).
  { apply Forall_map. apply Forall_forall. intros a _. apply sq_nonneg. }
  pose proof (fsum_nonneg _ Hnn) as Hs.
  pose proof (fsum_zero _ Hnn) as Hz.
  split; [lra|]. split.
  - intros H.
    assert (H0 : Forall (fun t => t = 0%R) (map Targets.sq x)).
    { apply Forall_map. apply Forall_impl with (2 := H).
      intros a ->. unfold Targets.sq. lra. }
    apply Hz in H0. lra.
  - intros y Hxy. simpl. unfold Targets.target_normal. do 2 f_equal.
    clear Hnn Hs Hz.
    induction Hxy as [|a b x' y' Hab _ IH]; simpl; [reflexivity|].
    f_equal; [|exact IH].
    destruct Hab as [-> | ->]; unfold Targets.sq; lra.
Qed.

Lemma rosenbrock_value (x : list R) :
  call_target target_rosenbrock x = Ok (- Targets.fsum (rosenbrock_terms x))%R.
Proof. reflexivity. Qed.

Lemma rosenbrock_terms_cons (a b : R) (rest : list R) :
  rosenbrock_terms (a :: b :: rest)
  = (100 * Targets.sq (b - Targets.sq a) + Targets.sq (1 - a))%R
      :: rosenbrock_terms (b :: rest).
Proof. reflexivity. Qed.

Lemma rosenbrock_terms_nonneg (x : list R) :
  Forall (fun t => 0 <= t)%R (rosenbrock_terms x).
Proof.
  unfold rosenbrock_terms. apply Forall_map. apply Forall_forall.
  intros [a b] _. pose proof (sq_nonneg (a - Targets.sq b)).
  pose proof (sq_nonneg (1 - b)). lra.
Qed.

Lemma rosenbrock_term_zero (a b : R) :
  (100 * Targets.sq (b - Targets.sq a) + Targets.sq (1 - a))%R = 0%R
  <-> a = 1%R /\ b = 1%R.
Proof.
  split.
  - intros H. pose proof (sq_nonneg (b - Targets.sq a)) as H1.
    pose proof (sq_nonneg (1 - a)) as H2.
    assert (Ha : Targets.sq (1 - a) = 0%R) by lra.
    assert (Hb : Targets.sq (b - Targets.sq a) = 0%R) by lra.
    apply sq_zero in Ha. apply sq_zero in Hb.
    assert (a = 1%R) by lra. subst a. unfold Targets.sq in Hb. split; lra.
  - intros [-> ->]. unfold Targets.sq. lra.
Qed.

Lemma rosenbrock_terms_zero (x : list R) :
  (2 <= List.length x)%nat ->
  (Forall (fun t => t = 0%R) (rosenbrock_terms x)
   <-> Forall (fun c => c = 1%R) x).
Proof.
  induction x as [|a y IH]; simpl; [lia|].
  destruct y as [|b rest]; simpl; [lia|]. intros _.
  rewrite rosenbrock_terms_cons. split.
  - intros H. inversion H as [|? ? Ht Hrest]; subst.
    apply rosenbrock_term_zero in Ht as [-> ->].
    constructor; [reflexivity|].
    destruct rest as [|c rest'].
    + constructor; [reflexivity | constructor].
    + apply IH; [simpl; lia | exact Hrest].
  - intros H. inversion H as [|? ? Ha Hy]; subst.
    inversion Hy as [|? ? Hb Hr]; subst.
    constructor; [apply rosenbrock_term_zero; split; reflexivity|].
    destruct rest as [|c rest'].
    + constructor.
    + apply IH; [simpl; lia | exact Hy].
Qed.

(** X15.  The Rosenbrock log-density is never positive; on vectors with at
    least two coordinates it is 0 exactly at the vector of ones, and on
    shorter vectors it is constantly 0. *)
Theorem rosenbrock_maximum (x : list R) :
  exists v,
    call_target target_rosenbrock x = Ok v
    /\ (v <= 0)%R
    /\ ((List.length x < 2)%nat -> v = 0%R)
    /\ ((2 <= List.length x)%nat -> (v = 0%R <-> Forall (fun c => c = 1%R) x)).
Proof.
  exists (- Targets.fsum (rosenbrock_terms x))%R.
  split; [apply rosenbrock_value|].
  pose proof (rosenbrock_terms_nonneg x) as Hnn.
  pose proof (fsum_nonneg _ Hnn) as Hs.
  pose proof (fsum_zero _ Hnn) as Hz.
  split; [lra|]. split.
  - intros Hlen. destruct x as [|a [|b rest]]; simpl in Hlen; try lia;
      unfold rosenbrock_terms; simpl; lra.
  - intros Hlen. rewrite <- (rosenbrock_terms_zero x Hlen), <- Hz. lra.
Qed.

(** ** Symmetry of the dual-moon density *)

Lemma norm_flip_sign (a : R) (rest : list R) :
  Targets.norm ((- a)%R :: rest) = Targets.norm (a :: rest).
Proof.
  unfold Targets.norm. simpl. f_equal. f_equal. unfold Targets.sq. lra.
Qed.

Lemma logsumexp_pair_flip (a s : R) :
  Targets.logsumexp
    (map (fun c => - (1/2) * Targets.sq ((- a + c) / s))%R [(-3)%R; 3%R])
  = Targets.logsumexp
      (map (fun c => - (1/2) * Targets.sq ((a + c) / s))%R [(-3)%R; 3%R]).
Proof.
  unfold Targets.logsumexp. simpl. f_equal.
  replace (Targets.sq ((- a + -3) / s)) with (Targets.sq ((a + 3) / s))
    by (unfold Targets.sq, Rdiv; lra).
  replace (Targets.sq ((- a + 3) / s)) with (Targets.sq ((a + -3) / s))
    by (unfold Targets.sq, Rdiv; lra).
  lra.
Qed.

(** X16.  The dual-moon log-density does not change when the sign of the
    first coordinate or of the second coordinate is changed. *)
Theorem dual_moon_sign_symmetry (x0 x1 : R) (rest : list R) :
  call_target target_dual_moon ((- x0)%R :: x1 :: rest)
  = call_target target_dual_moon (x0 :: x1 :: rest)
  /\ call_target target_dual_moon (x0 :: (- x1)%R :: rest)
     = call_target target_dual_moon (x0 :: x1 :: rest).
Proof.
  split.
  - simpl. unfold Targets.target_dual_moon, Targets.index.
    cbn [List.length Nat.min Nat.sub nth rbind].
    rewrite norm_flip_sign, logsumexp_pair_flip. reflexivity.
  - simpl. unfold Targets.target_dual_moon, Targets.index.
    cbn [List.length Nat.min Nat.sub nth rbind].
    rewrite logsumexp_pair_flip.
    replace (Targets.norm (x0 :: (- x1)%R :: rest))
      with (Targets.norm (x0 :: x1 :: rest)); [reflexivity|].
    unfold Targets.norm. simpl. f_equal. unfold Targets.sq. lra.
Qed.

(** ** What the scan counts *)

(** X17.  For a prefix without regular-expression operators and a
    directory whose entries are named in ASCII, a number is counted by the
    scan exactly when some immediate subdirectory has a name that begins
    with the prefix, an underscore and a run of digits with that value;
    regular files are not counted, and what follows the digits in the name
    is not looked at. *)
Theorem version_numbers_spec (prefix : string) (es : list (string * node)) (n : N) :
  literal_prefix prefix = true ->
  ascii_names es ->
  (In n (version_numbers prefix es) <->
   exists name sub ds rest,
     In (name, Dir sub) es
     /\ name = (prefix ++ "_" ++ ds ++ rest)%string
     /\ ds <> ""
     /\ forall_chars is_digit ds = true
     /\ head_is_digit rest = false
     /\ n = int_of_digits ds).
Proof.
  intros _ _.
  unfold version_numbers, matched_numbers, subdirectories. rewrite in_flat_map.
  split.
  - intros [name [Hin Hn]]. apply in_map_iff in Hin as [[name' node] [Hfst Hf]].
    simpl in Hfst. subst name'. apply filter_In in Hf as [Hin Hdir].
    destruct node as [|sub]; [discriminate|].
    destruct (re_match_group1 prefix name) as [ds|] eqn:Hm; [|contradiction].
    destruct Hn as [<- | []].
    apply re_match_group1_spec in Hm as [rest [Hname [Hne [Hd Hr]]]].
    exists name, sub, ds, rest. repeat split; assumption.
  - intros [name [sub [ds [rest [Hin [Hname [Hne [Hd [Hr ->]]]]]]]]].
    exists name. split.
    + change name with (fst (name, Dir sub)). apply in_map.
      apply filter_In. split; [exact Hin | reflexivity].
    + assert (Hm : re_match_group1 prefix name = Some ds).
      { apply re_match_group1_spec. exists rest. repeat split; assumption. }
      rewrite Hm. left. reflexivity.
Qed.

(** Witness: [results_1], a regular file and [results_3] count 1 and 3. *)
Lemma version_numbers_spec_witness :
  In 3%N (version_numbers "results"
            [("results_1", Dir []); ("notes.txt", File); ("results_3", Dir [])]).
Proof.
  apply (proj2 (version_numbers_spec "results"
                  [("results_1", Dir []); ("notes.txt", File); ("results_3", Dir [])]
                  3 eq_refl ltac:(repeat constructor))).
  exists "results_3", [], "3", "".
  repeat split; try reflexivity.
  - right. right. left. reflexivity.
  - discriminate.
Defined.

(** X18.  Until the versioned directory is created the scan keeps giving the
    same path: a second call right after a first one returns the same
    path and changes nothing. *)
Theorem scan_is_stable (w w1 : world) (base prefix d : string) :
  plain_path base = true ->
  literal_prefix prefix = true ->
  (forall es, resolve (fs w) base = Some (Dir es) -> entries_ok es) ->
  get_next_available_outdir base prefix w = (Ok d, w1) ->
  get_next_available_outdir base prefix w1 = (Ok d, w1).
Proof.
  intros _ _ Hok H.
  destruct (get_next_ok_inv _ _ _ _ _ Hok H) as [es [Hres [Hes [-> _]]]].
  apply (get_next_existing_base _ _ _ _ Hres Hes).
Qed.

(** Witness: a base that does not exist yet. *)
Lemma scan_is_stable_witness :
  get_next_available_outdir "runs/out" "results"
    (mkWorld (Dir [("runs", Dir [("out", Dir [])])]) [])
  = (Ok "runs/out/results_1", mkWorld (Dir [("runs", Dir [("out", Dir [])])]) []).
Proof.
  refine (scan_is_stable empty_world _ "runs/out" "results" _ eq_refl eq_refl _ eq_refl).
  intros es Hes. vm_compute in Hes. discriminate.
Defined.

(** ** The request to the sampler *)

(** X19.  In every request the sampler and the bundle are given the same
    dimension and number of chains, those of the parameters; the initial
    ensemble is drawn for that shape with the very key the bundle is
    seeded with; the density is the one the constructor bound; and the two
    hidden layers of the flow have the same width. *)
Theorem request_is_consistent {E : Extern} (r : runner) (call : sampler_call prng_key) :
  sampler_request r = Ok call ->
  s_n_dim call = n_dims (r_params r)
  /\ b_n_dims (s_bundle call) = s_n_dim call
  /\ s_n_chains call = n_chains (r_params r)
  /\ b_n_chains (s_bundle call) = s_n_chains call
  /\ random_normal (b_rng_key (s_bundle call)) (s_n_chains call, s_n_dim call)
     = Ok (s_initial_position call)
  /\ target_fn r = Some (b_logpdf (s_bundle call))
  /\ b_rq_spline_hidden_units (s_bundle call)
     = repeat (rq_spline_hidden_units (r_params r)) 2.
Proof.
  unfold sampler_request, get_target_fn.
  destruct (random_split (PRNGKey 42)) as [k sk].
  destruct (random_normal sk (n_chains (r_params r), n_dims (r_params r)))
    as [pos|e] eqn:Hpos; simpl; [|discriminate].
  destruct (target_fn r) as [t|]; simpl; [|discriminate].
  intros H. injection H as <-. simpl. repeat split. exact Hpos.
Qed.

(** Witness: the request of a Gaussian run with the defaults. *)
Lemma request_is_consistent_witness :
  exists call : sampler_call (list Z),
    @sampler_request (example_extern StandIn.positions_2x8 StandIn.rhat always_ok)
       (mkRunner (parser_defaults "gaussian" 2 "out/results_1")
                 (Some target_normal) None) = Ok call
    /\ b_n_dims (s_bundle call) = s_n_dim call
    /\ s_n_dim call = 2%Z.
Proof.
  eexists. split; [reflexivity|].
  destruct (@request_is_consistent
              (example_extern StandIn.positions_2x8 StandIn.rhat always_ok)
              (mkRunner (parser_defaults "gaussian" 2 "out/results_1")
                        (Some target_normal) None)
              _ eq_refl) as [H1 [H2 _]].
  split; [exact H2 | exact H1].
Defined.
